(** * Process orchestrator and webhook handler: a shallow embedding

    The development follows [automation/process-orchestrator.py] and
    [webhooks/obl-webhook-handler.py].  Python code that raises is modelled
    in a state-and-exception monad; the per-step result dictionary is a
    [gmap string bool]; the configuration is the value tree PyYAML's
    [safe_load] produces. *)

From Stdlib Require Import ZArith QArith Lia Ascii String.
From stdpp Require Import base strings list gmap fin_maps pretty.

Local Open Scope string_scope.

(** ** Python fragments shared by both programs *)

Module Py.

(** The subclasses of [Exception] the modelled statements can raise.
    [BaseException]s outside [Exception] (keyboard interrupt, interpreter
    exit) are asynchronous to the program text and are not modelled. *)
Inductive exn : Type :=
| KeyError (key : string)
| TypeError (msg : string)
| AttributeError (msg : string)
| OSError (msg : string)
| ValueError (msg : string).

Inductive result (A : Type) : Type :=
| Ok (a : A)
| Raise (e : exn).
Arguments Ok {A} a.
Arguments Raise {A} e.

(** [str(e)], as the handlers print it. *)
Definition str_of_exn (e : exn) : string :=
  match e with
  | KeyError k => "'" ++ k ++ "'"
  | TypeError m | AttributeError m | OSError m | ValueError m => m
  end.

(** The levels of [logging] the two programs use. *)
Inductive level : Type := INFO | WARNING | ERROR.

(** A computation over a state [S] that returns or raises; the state reached
    before a [raise] is kept, as Python keeps the effects already performed. *)
Definition M (S A : Type) : Type := S -> result A * S.

Definition ret {S A} (a : A) : M S A := fun s => (Ok a, s).

Definition raise {S A} (e : exn) : M S A := fun s => (Raise e, s).

Definition bind {S A B} (m : M S A) (k : A -> M S B) : M S B :=
  fun s => match m s with
           | (Ok a, s') => k a s'
           | (Raise e, s') => (Raise e, s')
           end.

(** [try: m  except Exception as e: h e] *)
Definition try_except {S A} (m : M S A) (h : exn -> M S A) : M S A :=
  fun s => match m s with
           | (Ok a, s') => (Ok a, s')
           | (Raise e, s') => h e s'
           end.

Definition lift {S A} (r : result A) : M S A := fun s => (r, s).

Definition modify {S} (f : S -> S) : M S unit := fun s => (Ok tt, f s).

End Py.

Import Py.

Notation "'let*' x ':=' m 'in' k" := (bind m (fun x => k))
  (at level 10, x name, m at level 100, k at level 200).
Notation "'do*' m 'in' k" := (bind m (fun _ => k))
  (at level 10, m at level 100, k at level 200).

(** ** automation/process-orchestrator.py *)

Module Orchestrator.

(** [class ProcessStatus(Enum)], lines 22-28. *)
Inductive ProcessStatus : Type :=
| PENDING | RUNNING | COMPLETED | FAILED | RETRYING | CANCELLED.

#[global] Instance ProcessStatus_eq_dec : EqDecision ProcessStatus.
Proof. solve_decision. Defined.

(** [@dataclass class ProcessStep], lines 30-43.  Python's [int] is
    unbounded, hence [Z]; nothing in the file restricts the sign. *)
Record ProcessStep : Type := {
  name : string;
  command : string;
  dependencies : list string;
  timeout : Z;
  retry_count : Z;
  retry_delay : Z;
  critical : bool;
  environment : gmap string string;
  condition : option string
}.

(** What [yaml.safe_load] returns.  A mapping is kept as the items of the
    dictionary PyYAML built (keys unique, looked up by equality); scalars
    other than the four listed (floats, timestamps, binary) are [YOther]:
    all that matters of them here is that they cannot be subscripted by a
    [str]. *)
#[warnings="-register-all"] Inductive yaml : Type :=
| YNull
| YBool (b : bool)
| YInt (z : Z)
| YStr (s : string)
| YOther (repr : string)
| YList (items : list yaml)
| YMap (items : list (yaml * yaml)).

Definition is_key (k : string) (key : yaml) : bool :=
  match key with
  | YStr s => String.eqb s k
  | _ => false
  end.

Fixpoint dict_get (items : list (yaml * yaml)) (k : string) : option yaml :=
  match items with
  | [] => None
  | (key, v) :: rest => if is_key k key then Some v else dict_get rest k
  end.

(** [v[k]] for a [str] key [k]. *)
Definition getitem (v : yaml) (k : string) : result yaml :=
  match v with
  | YMap items =>
      match dict_get items k with
      | Some x => Ok x
      | None => Raise (KeyError k)
      end
  | YList _ => Raise (TypeError "list indices must be integers or slices, not str")
  | YStr _ => Raise (TypeError "string indices must be integers, not 'str'")
  | YNull => Raise (TypeError "'NoneType' object is not subscriptable")
  | YBool _ => Raise (TypeError "'bool' object is not subscriptable")
  | YInt _ => Raise (TypeError "'int' object is not subscriptable")
  | YOther _ => Raise (TypeError "object is not subscriptable")
  end.

(** The report dictionary of [_generate_execution_report], lines 130-135.
    [results] is [None] when the caller passes Python's [None].  The success
    rate is the exact quotient: Python's [int / int] returns the double
    nearest to it, and [0] and [1] are doubles, so bounds between them carry
    over to the rounded value. *)
Record Report : Type := {
  r_process : string;
  r_timestamp : string;
  r_results : option (gmap string bool);
  r_success_rate : Q
}.

(** What a run does to the outside.  [RunCommand] is the dispatch of a
    step's [command] to a command-execution backend; it is listed so that
    its absence from a trace can be stated. *)
Inductive event : Type :=
| Log (lvl : level) (msg : string)
| WriteReport (path : string) (report : Report)
| RunCommand (step : string) (cmd : string).

(** The surroundings a run reads: the file system and the wall clock. *)
Record Env : Type := {
  read_config : string -> result yaml;
  open_log : option exn;
  now_iso : nat -> string;
  now_stamp : nat -> string;
  open_report : string -> option exn
}.

(** The mutable attributes of the orchestrator (lines 60-62), the number of
    clock readings so far and the effects performed so far. *)
Record State : Type := {
  processes : gmap string ProcessStep;
  execution_graph : gmap string (list string);
  process_states : gmap string ProcessStatus;
  clock : nat;
  trace : list event
}.

Definition emit (ev : event) : M State unit :=
  modify (fun s => {| processes := processes s;
                      execution_graph := execution_graph s;
                      process_states := process_states s;
                      clock := clock s;
                      trace := trace s ++ [ev] |}).

(** [datetime.now()]: the reading is identified by its rank. *)
Definition now : M State nat :=
  fun s => (Ok (clock s),
            {| processes := processes s;
               execution_graph := execution_graph s;
               process_states := process_states s;
               clock := S (clock s);
               trace := trace s |}).

Definition log (lvl : level) (msg : string) : M State unit := emit (Log lvl msg).

(** *** The report, lines 126-138 *)

Definition bool_to_Z (b : bool) : Z := if b then 1%Z else 0%Z.

(** [sum(results.values())] *)
Definition sum_values (results : gmap string bool) : Z :=
  map_fold (fun _ b acc => (bool_to_Z b + acc)%Z) 0%Z results.

(** [len(results)] *)
Definition len (results : gmap string bool) : Z := Z.of_nat (size results).

(** [sum(results.values()) / len(results) if results else 0]: [None] and the
    empty dictionary are the falsy values [results] can take. *)
Definition success_rate (results : option (gmap string bool)) : Q :=
  match results with
  | None => 0%Q
  | Some m =>
      if decide (size m = 0%nat) then 0%Q
      else (inject_Z (sum_values m) / inject_Z (len m))%Q
  end.

Definition build_report (process_name timestamp : string)
    (results : option (gmap string bool)) : Report :=
  {| r_process := process_name;
     r_timestamp := timestamp;
     r_results := results;
     r_success_rate := success_rate results |}.

Definition report_path (process_name stamp : string) : string :=
  "reports/" ++ process_name ++ "_" ++ stamp ++ ".json".

Definition _generate_execution_report (env : Env) (process_name : string)
    (results : option (gmap string bool)) : M State unit :=
  let* t1 := now in
  let report := build_report process_name (now_iso env t1) results in
  let* t2 := now in
  let path := report_path process_name (now_stamp env t2) in
  match open_report env path with
  | Some e => raise e
  | None => emit (WriteReport path report)
  end.

(** *** The two planning methods, lines 111-124: both bodies are [pass] *)

Definition _build_execution_plan (steps : yaml) : M State (option (list ProcessStep)) :=
  ret None.

Definition _execute_steps_parallel (steps : option (list ProcessStep))
  : M State (option (gmap string bool)) :=
  ret None.

(** *** [execute_process_chain], lines 82-109 *)

(** [results.values()] *)
Definition values (results : option (gmap string bool)) : result (gmap string bool) :=
  match results with
  | Some m => Ok m
  | None => Raise (AttributeError "'NoneType' object has no attribute 'values'")
  end.

(** [all(...)] over the values of a dictionary. *)
Definition all_values (results : gmap string bool) : bool :=
  map_fold (fun _ b acc => b && acc) true results.

Section Chain.

(** The chain is stated over the two methods it calls, so that what it
    does with their results holds of any override as well. *)
Variable build_plan : yaml -> M State (option (list ProcessStep)).
Variable run_steps : option (list ProcessStep) -> M State (option (gmap string bool)).

(** The [try] block, lines 93-105. *)
Definition chain_body (env : Env) (config : yaml) (process_name : string)
  : M State bool :=
  do* log INFO ("Starting process chain: " ++ process_name) in
  let* procs := lift (getitem config "processes") in
  let* process_def := lift (getitem procs process_name) in
  let* step_defs := lift (getitem process_def "steps") in
  let* steps := build_plan step_defs in
  let* results := run_steps steps in
  do* _generate_execution_report env process_name results in
  let* vs := lift (values results) in
  ret (all_values vs).

(** The handler, lines 107-109. *)
Definition chain_handler (e : exn) : M State bool :=
  do* log ERROR ("Process chain failed: " ++ str_of_exn e) in
  ret false.

Definition execute_process_chain_with (env : Env) (config : yaml)
    (process_name : string) : M State bool :=
  try_except (chain_body env config process_name) chain_handler.

(** [ProcessOrchestrator(args.config)], lines 58-63. *)
Definition init (env : Env) (config_path : string) : M State yaml :=
  let* config := lift (read_config env config_path) in
  do* modify (fun s => {| processes := ∅;
                          execution_graph := ∅;
                          process_states := ∅;
                          clock := clock s;
                          trace := trace s |}) in
  match open_log env with
  | Some e => raise e
  | None => ret config
  end.

(** [exit(0 if result else 1)], line 152. *)
Definition exit_code (result : bool) : Z := if result then 0%Z else 1%Z.

(** The [__main__] block after argument parsing, lines 149-152.  An
    exception that reaches the top level ends the interpreter with
    status 1. *)
Definition main_with (env : Env) (config_path process_name : string)
    (s : State) : Z * State :=
  match init env config_path s with
  | (Raise _, s1) => (1%Z, s1)
  | (Ok config, s1) =>
      match execute_process_chain_with env config process_name s1 with
      | (Ok result, s2) => (exit_code result, s2)
      | (Raise _, s2) => (1%Z, s2)
      end
  end.

End Chain.

Definition execute_process_chain : Env -> yaml -> string -> M State bool :=
  execute_process_chain_with _build_execution_plan _execute_steps_parallel.

Definition main : Env -> string -> string -> State -> Z * State :=
  main_with _build_execution_plan _execute_steps_parallel.

(** *** The step statuses of the specification *)

(** Modelled from the spec: the status set of a step's execution state
    (section 3).  The source's [ProcessStatus] has neither [Ready] nor
    [Skipped], and its scheduler, which would assign the statuses, is
    [pass]. *)
Inductive StepStatus : Type :=
| Pending | Ready | Running | Retrying | Completed | Failed | Skipped | Cancelled.

#[global] Instance StepStatus_eq_dec : EqDecision StepStatus.
Proof. solve_decision. Defined.

(** Modelled from the spec: the boolean view of section 4.4,
    [results[stepName] = (status == Completed)], the dictionary a scheduler
    hands to line 105; the source's scheduler produces none. *)
Definition results_of (states : gmap string StepStatus) : gmap string bool :=
  (fun st => bool_decide (st = Completed)) <$> states.

(** The number of steps in [Completed]. *)
Definition count_completed (states : gmap string StepStatus) : nat :=
  size (filter (fun kv => kv.2 = Completed) states).

(** *** Reading a trace *)

Definition is_dispatch (ev : event) : bool :=
  match ev with
  | RunCommand _ _ => true
  | _ => false
  end.



(** The number of values [True] in a result dictionary. *)
Definition count_true (results : gmap string bool) : nat :=
  size (filter (fun kv => kv.2 = true) results).

(** [s'] differs from [s] by clock readings and by effects that are not
    dispatches: the three dictionaries of the orchestrator are untouched. *)
Definition quiet (s s' : State) : Prop :=
  processes s' = processes s /\
  execution_graph s' = execution_graph s /\
  process_states s' = process_states s /\
  exists new, trace s' = (trace s ++ new)%list /\ Forall (fun ev => is_dispatch ev = false) new.

(** *** Sample inputs *)

(** One step specification of a process definition, as [safe_load] yields it. *)
Definition step_def (step cmd : string) (deps : list string) (retries : Z)
    (crit : bool) : yaml :=
  YMap [(YStr "name", YStr step);
        (YStr "command", YStr cmd);
        (YStr "dependencies", YList (map YStr deps));
        (YStr "timeout", YInt 30);
        (YStr "retry_count", YInt retries);
        (YStr "retry_delay", YInt 1);
        (YStr "critical", YBool crit);
        (YStr "environment", YMap [])].

(** A configuration with the one process [deploy]. *)
Definition config_of (steps : list yaml) : yaml :=
  YMap [(YStr "processes", YMap [(YStr "deploy", YMap [(YStr "steps", YList steps)])])].

(** Surroundings in which every file can be opened. *)
Definition env_of (config : yaml) : Env :=
  {| read_config := fun _ => Ok config;
     open_log := None;
     now_iso := fun _ => "2024-05-01T12:00:00";
     now_stamp := fun _ => "20240501_120000";
     open_report := fun _ => None |}.

(** The interpreter before the [__main__] block runs. *)
Definition fresh : State :=
  {| processes := ∅; execution_graph := ∅; process_states := ∅;
     clock := 0; trace := [] |}.

(** A scheduler override that reports the dictionary [results]. *)
Definition reporting (results : gmap string bool)
  : option (list ProcessStep) -> M State (option (gmap string bool)) :=
  fun _ => ret (Some results).

(** The run of [path] and [name] built its orchestrator and its chain
    returned [True]. *)
Definition run_succeeded
    (build_plan : yaml -> M State (option (list ProcessStep)))
    (run_steps : option (list ProcessStep) -> M State (option (gmap string bool)))
    (env : Env) (config_path process_name : string) (s : State) : Prop :=
  exists config s1 s2,
    init env config_path s = (Ok config, s1) /\
    execute_process_chain_with build_plan run_steps env config process_name s1
      = (Ok true, s2).


(** What every run of the source's own planner and scheduler leaves: the
    start line, the report with no results, and the error line. *)
Definition stub_trace : list event :=
  [Log INFO "Starting process chain: deploy";
   WriteReport "reports/deploy_20240501_120000.json"
     {| r_process := "deploy"; r_timestamp := "2024-05-01T12:00:00";
        r_results := None; r_success_rate := 0 |};
   Log ERROR "Process chain failed: 'NoneType' object has no attribute 'values'"].

(** *** Further readings of a run *)

(** The three subscripts of lines 96-97,
    [self.config['processes'][process_name]['steps']]. *)
Definition step_defs_of (config : yaml) (process_name : string) : result yaml :=
  match getitem config "processes" with
  | Raise e => Raise e
  | Ok procs =>
      match getitem procs process_name with
      | Raise e => Raise e
      | Ok process_def => getitem process_def "steps"
      end
  end.

(** [s] after [ticks] further clock readings and the effects [evs]. *)
Definition advanced (s : State) (ticks : nat) (evs : list event) : State :=
  {| processes := processes s;
     execution_graph := execution_graph s;
     process_states := process_states s;
     clock := ticks + clock s;
     trace := (trace s ++ evs)%list |}.

Definition is_report (ev : event) : bool :=
  match ev with
  | WriteReport _ _ => true
  | _ => false
  end.

(** Surroundings in which no report file can be opened, as when the
    directory [reports] does not exist. *)
Definition env_without_reports (config : yaml) : Env :=
  {| read_config := fun _ => Ok config;
     open_log := None;
     now_iso := fun _ => "2024-05-01T12:00:00";
     now_stamp := fun _ => "20240501_120000";
     open_report := fun _ => Some (OSError "[Errno 2] No such file or directory") |}.

End Orchestrator.

(** ** webhooks/obl-webhook-handler.py *)

Module Webhook.

(** A Python [str] is a [string] whose characters are code points below
    256; a code point from 128 on is what [str.isascii] rejects, and every
    larger one behaves like these.  [bytes] are lists of bytes. *)
Definition is_ascii_char (c : ascii) : bool := (N_of_ascii c <? 128)%N.

Definition is_ascii (s : string) : bool :=
  forallb is_ascii_char (list_ascii_of_string s).

(** [s.encode('utf-8')] on code points below 256: one byte below 128, two
    bytes from there on. *)
Definition encode_char (c : ascii) : list Byte.byte :=
  let n := N_of_ascii c in
  if (n <? 128)%N then [byte_of_ascii c]
  else [byte_of_ascii (ascii_of_N (192 + n / 64));
        byte_of_ascii (ascii_of_N (128 + n mod 64))].

Definition encode_utf8 (s : string) : list Byte.byte :=
  flat_map encode_char (list_ascii_of_string s).

Definition hex_digit (n : N) : ascii :=
  if (n <? 10)%N then ascii_of_N (48 + n) else ascii_of_N (87 + n).

Definition hex_of_byte (b : Byte.byte) : string :=
  let n := Byte.to_N b in
  String (hex_digit (n / 16)) (String (hex_digit (n mod 16)) EmptyString).

(** [.hexdigest()] of a digest: two lower-case hexadecimal digits a byte. *)
Fixpoint hexdigest (digest : list Byte.byte) : string :=
  match digest with
  | [] => EmptyString
  | b :: rest => hex_of_byte b ++ hexdigest rest
  end.

(** [hmac.compare_digest] on two [str]: it refuses a string that is not
    ASCII with a [TypeError], and otherwise compares. *)
Definition compare_digest (a b : string) : result bool :=
  if is_ascii a && is_ascii b then Ok (String.eqb a b)
  else Raise (TypeError "comparing strings with non-ASCII characters is not supported").

(** What [json.loads] returns. *)
#[warnings="-register-all"] Inductive json : Type :=
| JNull
| JBool (b : bool)
| JNum (repr : string)
| JStr (s : string)
| JArr (items : list json)
| JObj (items : list (string * json)).

Fixpoint obj_get (items : list (string * json)) (k : string) : option json :=
  match items with
  | [] => None
  | (key, v) :: rest => if String.eqb key k then Some v else obj_get rest k
  end.

(** [data.get(k)]: only a dictionary has the method. *)
Definition data_get (data : json) (k : string) : result (option json) :=
  match data with
  | JObj items => Ok (obj_get items k)
  | _ => Raise (AttributeError "object has no attribute 'get'")
  end.

(** The part of [aiohttp]'s request the handler reads: the body, whose
    reading can fail, and the header table. *)
Record Request : Type := {
  read : result (list Byte.byte);
  headers_get : string -> option string
}.

(** [web.json_response(body, status=...)]: the body's fields, in order;
    [None] is the value of an absent field. *)
Record Response : Type := {
  status : Z;
  body : list (string * option json)
}.

Inductive event : Type :=
| Log (lvl : level) (msg : string) (arg : option json).

Definition no_update_status : string :=
  "'OBLWebhookHandler' object has no attribute 'update_status'".

Section Handler.

(** [hmac.new(key, msg, hashlib.sha256).digest()] of the standard library,
    the configured [WEBHOOK_SECRET] (line 20), [json.loads], and the two
    action methods the handler awaits (lines 151 and 246), whose effects on
    the outside are any at all. *)
Variable State : Type.
Variable hmac_sha256 : list Byte.byte -> list Byte.byte -> list Byte.byte.
Variable WEBHOOK_SECRET : string.
Variable json_loads : list Byte.byte -> result json.
Variable record : event -> State -> State.
Variable process_task_request : json -> M State unit.
Variable trigger_deployment : json -> M State unit.

Definition log (lvl : level) (msg : string) (arg : option json) : M State unit :=
  modify (record (Log lvl msg arg)).

(** [verify_signature], lines 63-74.  [not signature] holds of [None] and
    of the empty string. *)
Definition verify_signature (payload : list Byte.byte) (signature : option string)
  : result bool :=
  match signature with
  | None => Ok false
  | Some EmptyString => Ok false
  | Some sig =>
      let expected_signature :=
        hexdigest (hmac_sha256 (encode_utf8 WEBHOOK_SECRET) payload) in
      compare_digest ("sha256=" ++ expected_signature) sig
  end.

(** The header value the handler compares with. *)
Definition expected_header (payload : list Byte.byte) : string :=
  "sha256=" ++ hexdigest (hmac_sha256 (encode_utf8 WEBHOOK_SECRET) payload).

(** [data.get('action', 'unknown')] *)
Definition action_or_unknown (data : json) : result json :=
  match data_get data "action" with
  | Ok (Some a) => Ok a
  | Ok None => Ok (JStr "unknown")
  | Raise e => Raise e
  end.

(** Lines 93-100.  [update_status] is not a method of the class, so the
    third branch raises. *)
Definition dispatch (action : option json) (data : json) : M State unit :=
  match action with
  | Some (JStr "task_request") => process_task_request data
  | Some (JStr "deployment_trigger") => trigger_deployment data
  | Some (JStr "status_update") =>
      raise (AttributeError no_update_status)
  | _ => log INFO "Unknown action: " action
  end.

(** The [try] block of [handle_obl_webhook], lines 79-102. *)
Definition handle_body (request : Request) : M State Response :=
  let* payload := lift (read request) in
  let signature := headers_get request "X-Hub-Signature-256" in
  let* verified := lift (verify_signature payload signature) in
  if negb verified then
    do* log WARNING "Invalid webhook signature from obl.dev" None in
    ret {| status := 401; body := [("error", Some (JStr "Invalid signature"))] |}
  else
    let* data := lift (json_loads payload) in
    let* shown := lift (action_or_unknown data) in
    do* log INFO "Received obl.dev webhook: " (Some shown) in
    let* action := lift (data_get data "action") in
    do* dispatch action data in
    ret {| status := 200;
           body := [("status", Some (JStr "processed")); ("action", action)] |}.

(** Lines 104-106. *)
Definition handle_error (e : exn) : M State Response :=
  do* log ERROR "Error handling obl.dev webhook: " (Some (JStr (str_of_exn e))) in
  ret {| status := 500; body := [("error", Some (JStr (str_of_exn e)))] |}.

Definition handle_obl_webhook (request : Request) : M State Response :=
  try_except (handle_body request) handle_error.

End Handler.

(** A request with the body [payload] and, if [signature] is given, the
    one header [X-Hub-Signature-256]. *)
Definition request_of (payload : list Byte.byte) (signature : option string) : Request :=
  {| read := Ok payload;
     headers_get := fun h => if String.eqb h "X-Hub-Signature-256" then signature else None |}.

(** [sha256=] followed by the one character U+00E9. *)
Definition non_ascii_signature : string :=
  "sha256=" ++ String (ascii_of_N 233) EmptyString.

Definition not_ascii_message : string :=
  "comparing strings with non-ASCII characters is not supported".

End Webhook.

(** ** webhooks/obl-webhook-handler.py, the methods behind the endpoints

    Python's [None] and JSON's [null] are the one value [JNull] where a
    value is stored or tested.  The texts of some exceptions are shortened
    where Python's text depends on a class name the model does not keep
    (an integer key is printed like a [str] key); the classes and the
    control flow are the source's. *)

Module Server.

Import Webhook.

(** The surroundings the methods read: the API key of line 18, the clock,
    the file system where the deployment scripts live, the answer of the
    Anthropic API to a posted payload (the request raises, or has a status
    and a body that [response.json()] parses or not), whether the bridge
    file can be opened for writing, and three functions of Python itself:
    whether a JSON number is non-zero, [str()] of a value, and
    [str.lower]. *)
Record Env : Type := {
  CLAUDE_API_KEY : option string;
  utcnow : nat -> string;
  path_exists : string -> bool;
  claude_api : json -> result (Z * result json);
  open_bridge : option exn;
  num_truthy : string -> bool;
  py_str : json -> string;
  lower : string -> string
}.

(** The log, the bridge file (absent, or with content that [json.load]
    parses or not), the number of clock readings, and the payloads posted
    to the API so far. *)
Record World : Type := {
  logs : list event;
  bridge : option (result json);
  clock : nat;
  requests : list json
}.

Definition record (ev : event) (w : World) : World :=
  {| logs := (logs w ++ [ev])%list; bridge := bridge w;
     clock := clock w; requests := requests w |}.

Definition log (lvl : level) (msg : string) (arg : option json) : M World unit :=
  Webhook.log World record lvl msg arg.

(** [datetime.utcnow().isoformat()] *)
Definition now (env : Env) : M World string :=
  fun w => (Ok (utcnow env (clock w)),
            {| logs := logs w; bridge := bridge w;
               clock := S (clock w); requests := requests w |}).

Definition write_bridge (content : json) : M World unit :=
  modify (fun w => {| logs := logs w; bridge := Some (Ok content);
                      clock := clock w; requests := requests w |}).

Definition read_bridge : M World json :=
  fun w => match bridge w with
           | None => (Ok (JArr []), w)
           | Some content => (content, w)
           end.

Definition send_request (payload : json) : M World unit :=
  modify (fun w => {| logs := logs w; bridge := bridge w;
                      clock := clock w; requests := (requests w ++ [payload])%list |}).

(** Python's truth value of a value read from JSON. *)
Definition truthy (env : Env) (v : json) : bool :=
  match v with
  | JNull => false
  | JBool b => b
  | JNum repr => num_truthy env repr
  | JStr s => negb (String.eqb s "")
  | JArr items => negb (bool_decide (items = []))
  | JObj items => negb (bool_decide (items = []))
  end.

(** [d.get(k)] and [d.get(k, default)] *)
Definition get (data : json) (k : string) : result json :=
  match data_get data k with
  | Ok (Some v) => Ok v
  | Ok None => Ok JNull
  | Raise e => Raise e
  end.

Definition get_or (data : json) (k : string) (dflt : json) : result json :=
  match data_get data k with
  | Ok (Some v) => Ok v
  | Ok None => Ok dflt
  | Raise e => Raise e
  end.

(** *** [save_to_bridge], lines 220-244 *)

(** [existing_data[-100:]] when [len(existing_data) > 100] *)
Definition last_100 (entries : list json) : list json :=
  if (100 <? length entries)%nat then drop (length entries - 100) entries
  else entries.

(** [existing_data.append(data)]: only a list has the method. *)
Definition append_entry (existing data : json) : result (list json) :=
  match existing with
  | JArr entries => Ok (entries ++ [data])%list
  | _ => Raise (AttributeError "object has no attribute 'append'")
  end.

Definition save_body (env : Env) (data : json) : M World unit :=
  let* existing := read_bridge in
  let* appended := lift (append_entry existing data) in
  match open_bridge env with
  | Some e => raise e
  | None => write_bridge (JArr (last_100 appended))
  end.

Definition save_to_bridge (env : Env) (data : json) : M World unit :=
  try_except (save_body env data)
    (fun e => log ERROR "Error saving to bridge: " (Some (JStr (str_of_exn e)))).

(** *** [update_task_status], lines 265-277 *)

Definition status_update (env : Env) (task_id : json) (status stamp : string)
    (data : json) : json :=
  JObj ([("type", JStr "task_status"); ("task_id", task_id);
         ("status", JStr status); ("timestamp", JStr stamp)]
        ++ (if truthy env data then [("data", data)] else []))%list.

Definition update_task_status (env : Env) (task_id : json) (status : string)
    (data : json) : M World unit :=
  let* stamp := now env in
  save_to_bridge env (status_update env task_id status stamp data).

(** *** [send_to_claude], lines 169-209 *)

Definition key_configured (env : Env) : bool :=
  match CLAUDE_API_KEY env with
  | None | Some EmptyString => false
  | Some _ => true
  end.

Definition claude_payload (prompt : json) : json :=
  JObj [("model", JStr "claude-3-5-sonnet-20241022");
        ("max_tokens", JNum "4096");
        ("messages", JArr [JObj [("role", JStr "user"); ("content", prompt)]])].

(** Lines 200-202: [content = result.get('content', [])], and the text of
    [content[0]] if [content] is truthy and its first item has the type
    [text]; the function ends without [return] otherwise. *)
Definition first_text (env : Env) (result : json) : Py.result json :=
  match get_or result "content" (JArr []) with
  | Raise e => Raise e
  | Ok content =>
      match content with
      | JArr (first :: _) =>
          match first with
          | JObj items =>
              match obj_get items "type" with
              | Some (JStr "text") =>
                  Ok (match obj_get items "text" with Some t => t | None => JNull end)
              | _ => Ok JNull
              end
          | _ => Raise (AttributeError "object has no attribute 'get'")
          end
      | JArr [] => Ok JNull
      | JStr EmptyString => Ok JNull
      | JStr (String _ _) => Raise (AttributeError "'str' object has no attribute 'get'")
      | JObj [] => Ok JNull
      | JObj (_ :: _) => Raise (KeyError "0")
      | JNum repr =>
          if num_truthy env repr then Raise (TypeError "object is not subscriptable")
          else Ok JNull
      | JBool true => Raise (TypeError "'bool' object is not subscriptable")
      | JBool false => Ok JNull
      | JNull => Ok JNull
      end
  end.

(** The [try] block, lines 176-205. *)
Definition claude_exchange (env : Env) (prompt : json) : M World json :=
  let payload := claude_payload prompt in
  do* send_request payload in
  let* response := lift (claude_api env payload) in
  if (fst response =? 200)%Z then
    let* result := lift (snd response) in
    lift (first_text env result)
  else
    do* log ERROR "Claude API error: " (Some (JNum (pretty (fst response)))) in
    ret JNull.

Definition send_to_claude (env : Env) (prompt task_id : json) : M World json :=
  if key_configured env then
    try_except (claude_exchange env prompt)
      (fun e => do* log ERROR "Error sending to Claude: " (Some (JStr (str_of_exn e))) in
                ret JNull)
  else
    do* log ERROR "Claude API key not configured" None in
    ret JNull.

(** *** [process_task_request], lines 151-167 *)

(** [prompt[:50]] of a truthy prompt.  A dictionary raises as well (with
    [KeyError] from Python 3.12 on). *)
Definition slice_50 (prompt : json) : result json :=
  match prompt with
  | JStr s => Ok (JStr (substring 0 50 s))
  | JArr items => Ok (JArr (take 50 items))
  | JObj _ => Raise (TypeError "unhashable type: 'slice'")
  | _ => Raise (TypeError "object is not subscriptable")
  end.

Definition process_task_request (env : Env) (data : json) : M World unit :=
  let* task := lift (get_or data "task" (JObj [])) in
  let* task_id := lift (get task "id") in
  let* prompt := lift (get task "prompt") in
  if truthy env prompt then
    let* head := lift (slice_50 prompt) in
    do* log INFO "Processing task " (Some (JArr [task_id; head])) in
    let* claude_response := send_to_claude env prompt task_id in
    update_task_status env task_id "processing" claude_response
  else
    log ERROR "No prompt in task request" None.

(** *** [trigger_deployment], lines 246-263 *)

(** How an f-string prints a value: a [str] as it is. *)
Definition format (env : Env) (v : json) : string :=
  match v with
  | JStr s => s
  | _ => py_str env v
  end.

Definition deployment_script (env : Env) (target : json) : string :=
  "./scripts/deploy-" ++ format env target.

Definition trigger_deployment (env : Env) (data : json) : M World unit :=
  let* target := lift (get_or data "target" (JStr "railway")) in
  if path_exists env (deployment_script env target) then
    do* log INFO "Triggering deployment" (Some target) in
    let* stamp := now env in
    save_to_bridge env
      (JObj [("type", JStr "deployment_triggered"); ("target", target);
             ("timestamp", JStr stamp)])
  else
    log ERROR "Deployment script not found: "
      (Some (JStr (deployment_script env target))).

(** *** [relay_to_obl_dev] and [handle_claude_webhook], lines 108-130, 211-218 *)

Definition relay_to_obl_dev (env : Env) (data : json) : M World unit :=
  let* kind := lift (get_or data "type" (JStr "unknown")) in
  do* log INFO "Relaying to obl.dev: " (Some kind) in
  save_to_bridge env data.

Section Endpoints.

Variable env : Env.
Variable json_loads : list Byte.byte -> result json.

(** [await request.json()] *)
Definition request_json (request : Request) : M World json :=
  let* payload := lift (read request) in
  lift (json_loads payload).

Definition error_response (prefix : string) (e : exn) : M World Response :=
  do* log ERROR prefix (Some (JStr (str_of_exn e))) in
  ret {| status := 500; body := [("error", Some (JStr (str_of_exn e)))] |}.

Definition claude_body (request : Request) : M World Response :=
  let* data := request_json request in
  do* log INFO "Received Claude API response" None in
  let* task_id := lift (get data "task_id") in
  let* response := lift (get data "response") in
  do* (if truthy env task_id && truthy env response then
         let* stamp := now env in
         relay_to_obl_dev env
           (JObj [("type", JStr "claude_response"); ("task_id", task_id);
                  ("response", response); ("timestamp", JStr stamp)])
       else ret tt) in
  ret {| status := 200; body := [("status", Some (JStr "received"))] |}.

Definition handle_claude_webhook (request : Request) : M World Response :=
  try_except (claude_body request) (error_response "Error handling Claude webhook: ").

(** *** The GitHub endpoint, lines 132-149 and 279-312 *)

(** [needle in hay] for two [str]. *)
Definition contains (needle hay : string) : bool :=
  match index 0 needle hay with
  | Some _ => true
  | None => false
  end.

(** What [for commit in commits] yields after [len(commits)] succeeded: the
    items of a list, the characters of a [str], the keys of a
    dictionary. *)
Definition iter_items (v : json) : result (list json) :=
  match v with
  | JArr items => Ok items
  | JStr s => Ok (map (fun c => JStr (String c EmptyString)) (list_ascii_of_string s))
  | JObj items => Ok (map (fun kv => JStr (fst kv)) items)
  | _ => Raise (TypeError "object has no len()")
  end.

Definition is_trigger (message : string) : bool :=
  contains "deploy" (lower env message) || contains "webhook" (lower env message).

(** The body of the loop, lines 288-296. *)
Definition push_step (commit : json) : M World unit :=
  let* message := lift (get_or commit "message" (JStr "")) in
  match message with
  | JStr m =>
      if is_trigger m then
        let* id := lift (get commit "id") in
        let* shown := lift (get commit "message") in
        let* stamp := now env in
        save_to_bridge env
          (JObj [("type", JStr "github_trigger"); ("action", JStr "deploy");
                 ("commit", id); ("message", shown); ("timestamp", JStr stamp)])
      else ret tt
  | _ => raise (AttributeError "object has no attribute 'lower'")
  end.

Fixpoint push_loop (commits : list json) : M World unit :=
  match commits with
  | [] => ret tt
  | commit :: rest => do* push_step commit in push_loop rest
  end.

Definition process_github_push (data : json) : M World unit :=
  let* commits := lift (get_or data "commits" (JArr [])) in
  let* repository := lift (get_or data "repository" (JObj [])) in
  let* repo_name := lift (get repository "name") in
  let* items := lift (iter_items commits) in
  do* log INFO "GitHub push"
        (Some (JArr [repo_name; JNum (pretty (length items))])) in
  push_loop items.

Definition process_workflow_run (data : json) : M World unit :=
  let* workflow := lift (get_or data "workflow_run" (JObj [])) in
  let* state := lift (get workflow "status") in
  let* conclusion := lift (get workflow "conclusion") in
  let* wname := lift (get workflow "name") in
  do* log INFO "GitHub workflow" (Some (JArr [wname; state; conclusion])) in
  let* stamp := now env in
  save_to_bridge env
    (JObj [("type", JStr "workflow_status"); ("workflow", wname);
           ("status", state); ("conclusion", conclusion);
           ("timestamp", JStr stamp)]).

Definition github_body (request : Request) : M World Response :=
  let* data := request_json request in
  let event := headers_get request "X-GitHub-Event" in
  do* log INFO "Received GitHub webhook: "
        (Some (match event with Some ev => JStr ev | None => JNull end)) in
  do* match event with
      | Some "push" => process_github_push data
      | Some "workflow_run" => process_workflow_run data
      | _ => ret tt
      end in
  ret {| status := 200; body := [("status", Some (JStr "processed"))] |}.

Definition handle_github_webhook (request : Request) : M World Response :=
  try_except (github_body request) (error_response "Error handling GitHub webhook: ").

(** *** The obl.dev endpoint with its two action methods in place *)

Variable hmac_sha256 : list Byte.byte -> list Byte.byte -> list Byte.byte.
Variable WEBHOOK_SECRET : string.

Definition handle_obl_webhook : Request -> M World Response :=
  Webhook.handle_obl_webhook World hmac_sha256 WEBHOOK_SECRET json_loads record
    (process_task_request env) (trigger_deployment env).

End Endpoints.

(** *** Reading the bridge file *)

(** The entries of a bridge file that holds a list; none if it is absent. *)
Definition entries (w : World) : option (list json) :=
  match bridge w with
  | None => Some []
  | Some (Ok (JArr items)) => Some items
  | Some _ => None
  end.

(** [w] after [ticks] further clock readings and the log lines [lines]. *)
Definition advanced (w : World) (ticks : nat) (lines : list event) : World :=
  {| logs := (logs w ++ lines)%list; bridge := bridge w;
     clock := ticks + clock w; requests := requests w |}.

Definition with_bridge (w : World) (items : list json) : World :=
  {| logs := logs w; bridge := Some (Ok (JArr items));
     clock := clock w; requests := requests w |}.

(** *** Reading a push *)

Definition field (fields : list (string * json)) (k : string) : json :=
  match obj_get fields k with
  | Some v => v
  | None => JNull
  end.

(** The message of a commit the loop can handle: a dictionary whose
    [message] is a [str] or absent. *)
Definition commit_message (commit : json) : option string :=
  match commit with
  | JObj fields =>
      match obj_get fields "message" with
      | None => Some EmptyString
      | Some (JStr m) => Some m
      | Some _ => None
      end
  | _ => None
  end.

Definition trigger_entry (fields : list (string * json)) (stamp : string) : json :=
  JObj [("type", JStr "github_trigger"); ("action", JStr "deploy");
        ("commit", field fields "id"); ("message", field fields "message");
        ("timestamp", JStr stamp)].

(** The entries a push is to leave: one for each commit whose lower-cased
    message contains [deploy] or [webhook], in the order of the commits,
    stamped with successive clock readings from [tick] on. *)
Fixpoint trigger_entries (env : Env) (commits : list json) (tick : nat) : list json :=
  match commits with
  | [] => []
  | JObj fields :: rest =>
      match commit_message (JObj fields) with
      | Some m =>
          if is_trigger env m
          then trigger_entry fields (utcnow env tick) :: trigger_entries env rest (S tick)
          else trigger_entries env rest tick
      | None => trigger_entries env rest tick
      end
  | _ :: rest => trigger_entries env rest tick
  end.

(** *** Sample surroundings *)

(** No API key, no deployment script, a bridge file that can be written,
    and a [lower] that suits messages already in lower case. *)
Definition sample_env : Env :=
  {| CLAUDE_API_KEY := None;
     utcnow := fun _ => "2024-05-01T12:00:00";
     path_exists := fun _ => false;
     claude_api := fun _ => Raise (OSError "Cannot connect to host");
     open_bridge := None;
     num_truthy := fun repr => negb (String.eqb repr "0");
     py_str := fun _ => "None";
     lower := fun s => s |}.

(** No log line, no bridge file, no request yet. *)
Definition empty_world : World :=
  {| logs := []; bridge := None; clock := 0; requests := [] |}.

(** A request with the body [payload] and the one header [header]. *)
Definition request_with (payload : list Byte.byte) (header value : string) : Request :=
  {| read := Ok payload;
     headers_get := fun h => if String.eqb h header then Some value else None |}.

(** The bridge entries after [more] have been saved one by one. *)
Definition saved (items more : list json) : list json :=
  match more with
  | [] => items
  | _ => last_100 (items ++ more)
  end.

End Server.

(** ** webhooks/webhook-client.py *)

Module Client.

Import Webhook.

(** [task_data.get(k, default)] on the dictionary the caller passes. *)
Definition get_or (task_data : list (string * json)) (k : string) (dflt : json) : json :=
  match obj_get task_data k with
  | Some v => v
  | None => dflt
  end.

(** The payload of [send_obl_webhook], lines 22-31; [seconds] is
    [int(time.time())] and [stamp] the ISO time. *)
Definition obl_payload (task_data : list (string * json)) (seconds : Z)
    (stamp : string) : json :=
  JObj [("action", JStr "task_request");
        ("task", JObj [("id", JStr ("task_" ++ pretty seconds));
                       ("prompt", get_or task_data "prompt" (JStr "Test task"));
                       ("priority", get_or task_data "priority" (JStr "high"));
                       ("context", get_or task_data "context" (JStr "Test context"))]);
        ("timestamp", JStr stamp)].

Inductive output : Type :=
| Sent (status : Z) (result : json)
| Failed (e : exn).

Section Sending.

(** The state the client's run lives in, what [print] does to it, and
    [session.post(url, json=payload)] followed by [response.json()]: the
    exchange raises, or yields the status and the parsed body. *)
Variable W : Type.
Variable print : output -> W -> W.
Variable post : string -> json -> M W (Z * json).

(** [send_obl_webhook], lines 18-42: the result, or [None]. *)
Definition send_obl_webhook (base_url : string) (task_data : list (string * json))
    (seconds : Z) (stamp : string) : M W (option json) :=
  let url := base_url ++ "/webhook/obl-dev" in
  let payload := obl_payload task_data seconds stamp in
  try_except
    (let* response := post url payload in
     do* modify (print (Sent (fst response) (snd response))) in
     ret (Some (snd response)))
    (fun e => do* modify (print (Failed e)) in ret None).

End Sending.

(** The body of a response as the client parses it. *)
Definition body_json (fields : list (string * option json)) : json :=
  JObj (map (fun kv => (fst kv, match snd kv with Some v => v | None => JNull end)) fields).

(** The client's [post] when its URL reaches the obl.dev endpoint of the
    handler: the payload arrives as the body [json_dumps payload] with the
    content type of [json=], and with no [X-Hub-Signature-256] header,
    since line 35 passes none. *)
Definition deliver (env : Server.Env) (json_loads : list Byte.byte -> result json)
    (hmac_sha256 : list Byte.byte -> list Byte.byte -> list Byte.byte)
    (WEBHOOK_SECRET : string) (json_dumps : json -> list Byte.byte)
    (url : string) (payload : json)
  : M (Server.World * list output) (Z * json) :=
  fun s =>
    match Server.handle_obl_webhook env json_loads hmac_sha256 WEBHOOK_SECRET
            {| read := Ok (json_dumps payload);
               headers_get := fun h => if String.eqb h "Content-Type"
                                       then Some "application/json" else None |}
            (fst s) with
    | (Ok response, w) => (Ok (status response, body_json (body response)), (w, snd s))
    | (Raise e, w) => (Raise e, (w, snd s))
    end.

Definition print (o : output) (s : Server.World * list output)
  : Server.World * list output :=
  (fst s, (snd s ++ [o])%list).

End Client.

(** * Properties of the orchestrator *)
(** * Properties of the orchestrator *)

Section OrchestratorFacts.

Import Orchestrator.

(** ** The result dictionary *)

Lemma sum_values_count (results : gmap string bool) :
  sum_values results = Z.of_nat (count_true results).
Proof.
  unfold sum_values, count_true.
  apply (map_fold_weak_ind
           (fun r (m : gmap string bool) =>
              r = Z.of_nat (size (filter (fun kv => kv.2 = true) m)))).
  - by rewrite map_filter_empty, map_size_empty.
  - intros i b m r Hi ->. destruct b; simpl.
    + rewrite map_filter_insert_True by done.
      rewrite map_size_insert_None by (by rewrite map_lookup_filter_None; left).
      lia.
    + rewrite map_filter_insert_False by (simpl; congruence).
      rewrite delete_id by done. lia.
Qed.

Lemma count_true_le_size (results : gmap string bool) :
  (count_true results ≤ size results)%nat.
Proof. apply map_size_filter. Qed.



(** ** What a run leaves behind *)

Lemma quiet_refl (s : State) : quiet s s.
Proof.
  repeat split. exists []. by rewrite app_nil_r.
Qed.

Lemma quiet_trans (s1 s2 s3 : State) : quiet s1 s2 → quiet s2 s3 → quiet s1 s3.
Proof.
  intros (Hp & Hg & Hs & n1 & Ht1 & Hn1) (Hp' & Hg' & Hs' & n2 & Ht2 & Hn2).
  repeat split; try congruence.
  exists (n1 ++ n2)%list. split.
  - by rewrite Ht2, Ht1, app_assoc.
  - by apply Forall_app.
Qed.

Lemma quiet_log (lvl : level) (msg : string) (s : State) :
  ∃ s', log lvl msg s = (Ok tt, s') ∧ quiet s s'.
Proof.
  eexists. split; [reflexivity |]. repeat split.
  eexists. split; [reflexivity |]. by repeat constructor.
Qed.

Lemma quiet_now (s : State) : ∃ t s', now s = (Ok t, s') ∧ quiet s s'.
Proof.
  do 2 eexists. split; [reflexivity |]. repeat split.
  exists []. simpl. by rewrite app_nil_r.
Qed.

(** The report either is written, as one event, or its file cannot be
    opened and nothing is written. *)
Lemma report_written_or_raises (env : Env) (process_name : string)
    (results : option (gmap string bool)) (s : State) :
  (∃ s', _generate_execution_report env process_name results s = (Ok tt, s') ∧
         trace s' = (trace s ++
           [WriteReport (report_path process_name (now_stamp env (S (clock s))))
              (build_report process_name (now_iso env (clock s)) results)])%list) ∨
  (∃ e s', _generate_execution_report env process_name results s = (Raise e, s') ∧
           trace s' = trace s).
Proof.
  unfold _generate_execution_report, bind, now. simpl.
  destruct (open_report env _) as [e |]; [right | left]; eauto.
Qed.

Lemma quiet_report (env : Env) (process_name : string)
    (results : option (gmap string bool)) (s : State) :
  ∃ r s', _generate_execution_report env process_name results s = (r, s') ∧ quiet s s'.
Proof.
  unfold _generate_execution_report, bind, now. simpl.
  destruct (open_report env _) as [e |]; do 2 eexists; (split; [reflexivity |]);
    repeat split; simpl.
  - exists []. by rewrite app_nil_r.
  - eexists. split; [reflexivity |]. by repeat constructor.
Qed.

(** The [try] block over the two [pass] bodies always raises. *)
Lemma stub_body_raises (env : Env) (config : yaml) (process_name : string) (s : State) :
  ∃ e s', chain_body _build_execution_plan _execute_steps_parallel
            env config process_name s = (Raise e, s') ∧ quiet s s'.
Proof.
  unfold chain_body, bind, lift, ret, _build_execution_plan,
    _execute_steps_parallel, values.
  destruct (quiet_log INFO ("Starting process chain: " ++ process_name) s)
    as (s1 & -> & Q1).
  destruct (getitem config "processes") as [procs | e]; [| eauto].
  destruct (getitem procs process_name) as [process_def | e]; [| eauto].
  destruct (getitem process_def "steps") as [step_defs | e]; [| eauto].
  unfold ret. cbv beta iota.
  destruct (quiet_report env process_name None s1) as (r & s2 & -> & Q2).
  destruct r as [[] | e]; eauto using quiet_trans.
Qed.

Lemma stub_chain_false (env : Env) (config : yaml) (process_name : string) (s : State) :
  ∃ s', execute_process_chain env config process_name s = (Ok false, s') ∧ quiet s s'.
Proof.
  unfold execute_process_chain, execute_process_chain_with, try_except.
  destruct (stub_body_raises env config process_name s) as (e & s1 & -> & Q1).
  unfold chain_handler, bind.
  destruct (quiet_log ERROR ("Process chain failed: " ++ str_of_exn e) s1)
    as (s2 & -> & Q2).
  eauto using quiet_trans.
Qed.

(** C3. Whatever the two planning methods do, the [__main__] block exits
    with status 0 when the run's outcome is [True] and with status 1 in
    every other case (outcome [False], or no outcome because the
    orchestrator could not be built). *)
Theorem exit_status_reflects_outcome
    (build_plan : yaml → M State (option (list ProcessStep)))
    (run_steps : option (list ProcessStep) → M State (option (gmap string bool)))
    (env : Env) (config_path process_name : string) (s : State) :
  let st := fst (main_with build_plan run_steps env config_path process_name s) in
  (st = 0%Z ∧ run_succeeded build_plan run_steps env config_path process_name s) ∨
  (st = 1%Z ∧ ¬ run_succeeded build_plan run_steps env config_path process_name s).
Proof.
  unfold main_with, run_succeeded. simpl.
  destruct (init env config_path s) as [[config | e] s1] eqn:Hinit; simpl.
  - destruct (execute_process_chain_with _ _ env config process_name s1)
      as [[[|] | e] s2] eqn:Hrun; simpl.
    + left. split; [done |]. by exists config, s1, s2.
    + right. split; [done |]. intros (c & t1 & t2 & [= <- <-] & H). congruence.
    + right. split; [done |]. intros (c & t1 & t2 & [= <- <-] & H). congruence.
  - right. split; [done |]. intros (c & t1 & t2 & H & _). congruence.
Qed.

(** Both statuses occur: a scheduler that reports success for every step
    gives status 0, the source's own gives status 1. *)
Example exit_status_samples :
  fst (main_with _build_execution_plan (reporting {[ "A" := true ]})
         (env_of (config_of [step_def "A" "true" [] 0 false]))
         "config.yaml" "deploy" fresh) = 0%Z ∧
  fst (main (env_of (config_of [step_def "A" "true" [] 0 false]))
         "config.yaml" "deploy" fresh) = 1%Z.
Proof. split; vm_compute; reflexivity. Qed.

(** C9. With the two [pass] bodies of the source, [execute_process_chain]
    never raises and returns [False] for every configuration and process
    name, and the [__main__] block exits with status 1. *)
Theorem stub_run_always_fails (env : Env) (config : yaml)
    (config_path process_name : string) (s : State) :
  (∃ s', execute_process_chain env config process_name s = (Ok false, s')) ∧
  fst (main env config_path process_name s) = 1%Z.
Proof.
  split.
  - destruct (stub_chain_false env config process_name s) as (s' & H & _). eauto.
  - unfold main, main_with.
    destruct (init env config_path s) as [[cfg | e] s1]; [| done].
    fold execute_process_chain.
    by destruct (stub_chain_false env cfg process_name s1) as (s' & -> & _).
Qed.

(** C8, as the code has it. The handler of lines 107-109 turns every
    exception of the [try] block into the return value [False], after one
    error line in the log: the caller always receives a boolean, and an
    internal error reaches it as the value an ordinary failed run has. *)
Theorem chain_converts_errors
    (build_plan : yaml → M State (option (list ProcessStep)))
    (run_steps : option (list ProcessStep) → M State (option (gmap string bool)))
    (env : Env) (config : yaml) (process_name : string) (s : State) :
  match chain_body build_plan run_steps env config process_name s with
  | (Ok b, s') =>
      execute_process_chain_with build_plan run_steps env config process_name s
        = (Ok b, s')
  | (Raise e, s') =>
      ∃ s'', execute_process_chain_with build_plan run_steps env config process_name s
               = (Ok false, s'') ∧
             trace s'' =
               (trace s' ++ [Log ERROR ("Process chain failed: " ++ str_of_exn e)])%list
  end.
Proof.
  unfold execute_process_chain_with, try_except.
  destruct (chain_body _ _ env config process_name s) as [[b | e] s']; [done |].
  eexists. split; reflexivity.
Qed.

(** C8 fails as stated. On a configuration whose process has no step, the
    [try] block of the source raises [AttributeError] (an internal error:
    [results] is [None]), and the caller receives [False]; a run whose
    scheduler reports the failed step [A] hands the caller the same
    [False]. *)
Lemma internal_error_returned_as_failure :
  fst (chain_body _build_execution_plan _execute_steps_parallel
         (env_of (config_of [])) (config_of []) "deploy" fresh)
    = Raise (AttributeError "'NoneType' object has no attribute 'values'") ∧
  fst (execute_process_chain (env_of (config_of [])) (config_of []) "deploy" fresh)
    = Ok false ∧
  fst (execute_process_chain_with _build_execution_plan (reporting {[ "A" := false ]})
         (env_of (config_of [step_def "A" "false" [] 0 false]))
         (config_of [step_def "A" "false" [] 0 false]) "deploy" fresh)
    = Ok false.
Proof. repeat split; vm_compute; reflexivity. Qed.



Lemma count_true_results_of (states : gmap string StepStatus) :
  count_true (results_of states) = count_completed states ∧
  size (results_of states) = size states.
Proof.
  unfold count_true, count_completed, results_of.
  rewrite map_filter_fmap, !map_size_fmap. split; [| done].
  f_equal. apply map_filter_ext. intros step st _. simpl.
  by rewrite bool_decide_eq_true.
Qed.

Lemma success_rate_bounds (results : gmap string bool) :
  (0 <= success_rate (Some results))%Q ∧ (success_rate (Some results) <= 1)%Q.
Proof.
  unfold success_rate, len. case_decide as Hsize; [done |].
  assert (0 < inject_Z (Z.of_nat (size results)))%Q as Hpos
    by (rewrite <- (Zlt_Qlt 0); lia).
  pose proof (count_true_le_size results) as Hle.
  rewrite sum_values_count. split.
  - apply Qle_shift_div_l; [done |]. rewrite Qmult_0_l.
    rewrite <- (Zle_Qle 0). lia.
  - apply Qle_shift_div_r; [done |]. rewrite Qmult_1_l.
    rewrite <- Zle_Qle. lia.
Qed.

(** C4. For every result dictionary, the success rate of the report is 0
    when the dictionary is empty and otherwise the number of its [True]
    values over the number of its entries, which for the boolean view of
    step statuses is the number of [Completed] steps over the number of
    steps; it lies between 0 and 1; and it is the rate of the one report
    [_generate_execution_report] writes, if the report file opens. *)
Theorem report_success_rate (env : Env) (process_name : string)
    (results : gmap string bool) (states : gmap string StepStatus) (s : State) :
  let rate := success_rate (Some results) in
  (size results = 0%nat → rate = 0%Q) ∧
  (size results ≠ 0%nat →
     rate = (inject_Z (Z.of_nat (count_true results)) /
             inject_Z (Z.of_nat (size results)))%Q) ∧
  (size states ≠ 0%nat →
     success_rate (Some (results_of states))
       = (inject_Z (Z.of_nat (count_completed states)) /
          inject_Z (Z.of_nat (size states)))%Q) ∧
  ((0 <= rate)%Q ∧ (rate <= 1)%Q) ∧
  match _generate_execution_report env process_name (Some results) s with
  | (Ok _, s') =>
      ∃ path report,
        trace s' = (trace s ++ [WriteReport path report])%list ∧
        r_results report = Some results ∧ r_success_rate report = rate
  | (Raise _, s') => trace s' = trace s
  end.
Proof.
  assert (∀ m : gmap string bool, size m ≠ 0%nat →
            success_rate (Some m)
              = (inject_Z (Z.of_nat (count_true m)) / inject_Z (Z.of_nat (size m)))%Q)
    as Hrate.
  { intros m H. unfold success_rate, len.
    rewrite decide_False by done. by rewrite sum_values_count. }
  cbv zeta. repeat split.
  - intros H. unfold success_rate. by rewrite decide_True.
  - apply Hrate.
  - intros H. destruct (count_true_results_of states) as [Hc Hs].
    rewrite Hrate by (by rewrite Hs). by rewrite Hc, Hs.
  - apply success_rate_bounds.
  - apply success_rate_bounds.
  - destruct (report_written_or_raises env process_name (Some results) s)
      as [(s' & -> & Ht) | (e & s' & -> & Ht)]; [| done].
    do 2 eexists. split; [exact Ht | done].
Qed.

(** The rate of the first scenario of the specification, and of a run in
    which one step of three failed. *)
Example success_rate_samples :
  (success_rate (Some {[ "A" := true; "B" := true; "C" := true ]}) == 1)%Q ∧
  (success_rate (Some {[ "A" := true; "B" := false; "C" := true ]}) == 2 # 3)%Q ∧
  success_rate (Some ∅) = 0%Q ∧ success_rate None = 0%Q.
Proof. repeat split; vm_compute; reflexivity. Qed.



(** Every run of the source leaves the three dictionaries of the
    orchestrator as they were and dispatches no command: what it adds to
    the trace are log lines and at most one report. *)
Theorem stub_run_is_inert (env : Env) (config : yaml) (process_name : string)
    (s : State) :
  quiet s (snd (execute_process_chain env config process_name s)) ∧
  ∀ steps, _execute_steps_parallel steps s = (Ok None, s).
Proof.
  split; [| done].
  by destruct (stub_chain_false env config process_name s) as (s' & -> & Hq).
Qed.

(** ** The planner and the scheduler on the specification's scenarios *)


(** C5 at its failing inputs: a duplicated step name, a dependency on a
    step that does not exist, and a cycle. The planner returns [None] for
    each and raises nothing; the run then fails with no step dispatched
    and no step status recorded. *)
Lemma planner_rejects_nothing :
  let twice := [step_def "A" "true" [] 0 false; step_def "A" "true" [] 0 false] in
  let unknown := [step_def "A" "true" ["Z"] 0 false] in
  let cycle := [step_def "A" "true" ["B"] 0 false; step_def "B" "true" ["A"] 0 false] in
  fst (_build_execution_plan (YList twice) fresh) = Ok None ∧
  fst (_build_execution_plan (YList unknown) fresh) = Ok None ∧
  fst (_build_execution_plan (YList cycle) fresh) = Ok None ∧
  main (env_of (config_of twice)) "config.yaml" "deploy" fresh
    = main (env_of (config_of cycle)) "config.yaml" "deploy" fresh ∧
  fst (main (env_of (config_of twice)) "config.yaml" "deploy" fresh) = 1%Z ∧
  process_states (snd (main (env_of (config_of twice)) "config.yaml" "deploy" fresh)) = ∅ ∧
  trace (snd (main (env_of (config_of twice)) "config.yaml" "deploy" fresh)) = stub_trace.
Proof. repeat split; vm_compute; reflexivity. Qed.


End OrchestratorFacts.

(** * Error and edge behaviour of the orchestrator *)

Section OrchestratorEdges.

Import Orchestrator.

Variable build_plan : yaml → M State (option (list ProcessStep)).
Variable run_steps : option (list ProcessStep) → M State (option (gmap string bool)).

Abbreviation run_chain := (execute_process_chain_with build_plan run_steps).

(** A configuration that lacks the process, or whose shape does not allow
    the three subscripts, makes the run return [False] with the start line
    and one error line that quotes the exception; neither the planner nor
    the scheduler is called and no report is written. *)
Theorem bad_config_fails_before_planning (env : Env) (config : yaml)
    (process_name : string) (e : exn) (s : State) :
  step_defs_of config process_name = Raise e →
  run_chain env config process_name s =
    (Ok false,
     advanced s 0 [Log INFO ("Starting process chain: " ++ process_name);
                   Log ERROR ("Process chain failed: " ++ str_of_exn e)]).
Proof.
  unfold step_defs_of, execute_process_chain_with, try_except, chain_body,
    chain_handler, bind, lift, log, emit, modify, ret, advanced.
  intros H.
  destruct (getitem config "processes") as [procs | e1].
  - destruct (getitem procs process_name) as [process_def | e2].
    + destruct (getitem process_def "steps") as [step_defs | e3]; [done |].
      injection H as ->. simpl. by rewrite <- app_assoc.
    + injection H as ->. simpl. by rewrite <- app_assoc.
  - injection H as ->. simpl. by rewrite <- app_assoc.
Qed.

(** If the report file cannot be opened, the run returns [False] whatever
    the scheduler reported, all steps successful included: the planner and
    the scheduler have run, no report is written, and the error line quotes
    the exception of [open]. *)
Theorem unwritable_report_fails_run (env : Env) (config : yaml)
    (process_name : string) (step_defs : yaml) (plan : option (list ProcessStep))
    (results : option (gmap string bool)) (e : exn) (s s1 s2 : State) :
  step_defs_of config process_name = Ok step_defs →
  build_plan step_defs
    (advanced s 0 [Log INFO ("Starting process chain: " ++ process_name)])
    = (Ok plan, s1) →
  run_steps plan s1 = (Ok results, s2) →
  open_report env (report_path process_name (now_stamp env (S (clock s2)))) = Some e →
  run_chain env config process_name s =
    (Ok false,
     advanced s2 2 [Log ERROR ("Process chain failed: " ++ str_of_exn e)]).
Proof.
  unfold step_defs_of, execute_process_chain_with, try_except, chain_body,
    chain_handler, _generate_execution_report.
  unfold bind, lift, log, emit, modify, ret, advanced, now, raise.
  intros Hdefs Hplan Hrun Hopen. simpl in *.
  destruct (getitem config "processes") as [procs |]; [| done].
  destruct (getitem procs process_name) as [process_def |]; [| done].
  rewrite Hdefs, Hplan, Hrun. simpl. by rewrite Hopen.
Qed.

End OrchestratorEdges.

Section OrchestratorRates.

Import Orchestrator.

Lemma all_values_count (results : gmap string bool) :
  all_values results = true ↔ count_true results = size results.
Proof.
  unfold all_values, count_true.
  apply (map_fold_weak_ind
           (fun r (m : gmap string bool) =>
              r = true ↔ size (filter (fun kv => kv.2 = true) m) = size m)).
  - by rewrite map_filter_empty.
  - intros i b m r Hi IH.
    pose proof (map_size_filter (fun kv : string * bool => kv.2 = true) m) as Hle.
    rewrite andb_true_iff, IH, map_size_insert_None by done.
    destruct b.
    + rewrite map_filter_insert_True by done.
      rewrite map_size_insert_None by (by rewrite map_lookup_filter_None; left).
      split; [intros [_ ->]; done | intros [= ->]; done].
    + rewrite map_filter_insert_False by (simpl; congruence).
      rewrite delete_id by done.
      split; [intros [? _]; done | intros H; rewrite H in Hle; lia].
Qed.

(** The outcome of line 105 and the success rate of the report agree on a
    dictionary that is not empty: the outcome is [True] exactly when the
    rate is 1. On the empty dictionary they part: the outcome is [True]
    and the rate is 0. *)
Theorem outcome_and_rate (results : gmap string bool) :
  size results ≠ 0%nat →
  (all_values results = true ↔ (success_rate (Some results) == 1)%Q) ∧
  all_values ∅ = true ∧ success_rate (Some ∅) = 0%Q.
Proof.
  intros Hsize. split; [| done].
  rewrite all_values_count. unfold success_rate, len.
  rewrite decide_False by done. rewrite sum_values_count.
  destruct (size results) as [| n]; [done |].
  unfold Qeq, Qdiv, Qmult, Qinv, inject_Z. simpl.
  rewrite Pos.mul_1_l, Zpos_P_of_succ_nat. lia.
Qed.

End OrchestratorRates.

(** * Properties of the webhook handler *)

Section WebhookFacts.

Import Webhook.

Variable State : Type.
Variable hmac_sha256 : list Byte.byte → list Byte.byte → list Byte.byte.
Variable WEBHOOK_SECRET : string.
Variable json_loads : list Byte.byte → result json.
Variable record : event → State → State.
Variable process_task_request : json → M State unit.
Variable trigger_deployment : json → M State unit.

Abbreviation verify := (verify_signature hmac_sha256 WEBHOOK_SECRET).
Abbreviation expected := (expected_header hmac_sha256 WEBHOOK_SECRET).
Abbreviation handle :=
  (handle_obl_webhook State hmac_sha256 WEBHOOK_SECRET json_loads record
     process_task_request trigger_deployment).

Lemma is_ascii_app (a b : string) :
  is_ascii (a ++ b) = is_ascii a && is_ascii b.
Proof.
  unfold is_ascii. induction a as [| c a IH]; [done |].
  simpl. by rewrite IH, andb_assoc.
Qed.

Lemma hex_digit_ascii (n : N) : (n < 16)%N → is_ascii_char (hex_digit n) = true.
Proof.
  intros Hn. unfold hex_digit.
  assert (n ∈ [0;1;2;3;4;5;6;7;8;9;10;11;12;13;14;15]%N) as Hin.
  { assert (∃ k, (k < 16)%nat ∧ n = N.of_nat k) as (k & Hk & ->)
      by (exists (N.to_nat n); lia).
    do 16 (destruct k as [| k]; [set_solver |]). lia. }
  set_unfold. by repeat (destruct Hin as [-> | Hin]; [done |]).
Qed.

Lemma hexdigest_ascii (digest : list Byte.byte) : is_ascii (hexdigest digest) = true.
Proof.
  induction digest as [| b rest IH]; [done |].
  simpl. rewrite is_ascii_app, IH, andb_true_r.
  unfold is_ascii, hex_of_byte. simpl.
  pose proof (Byte.to_N_bounded b).
  rewrite !hex_digit_ascii; [done | |].
  - apply N.mod_lt. lia.
  - apply N.Div0.div_lt_upper_bound. lia.
Qed.

Lemma expected_header_ascii (payload : list Byte.byte) :
  is_ascii (expected payload) = true.
Proof.
  unfold expected_header. by rewrite is_ascii_app, hexdigest_ascii.
Qed.

(** [verify_signature] on a signature that is there and not empty. *)
Lemma verify_present (payload : list Byte.byte) (sig : string) :
  sig ≠ EmptyString →
  verify payload (Some sig) = compare_digest (expected payload) sig.
Proof. by destruct sig. Qed.

(** A request whose signature is missing, empty, or ASCII and different
    from the expected header is answered with 401, and all the handler does
    besides is to log one warning: no action is processed. In particular
    [verify_signature] returns [False] when the signature is absent. *)
Theorem invalid_signature_rejected (request : Request) (payload : list Byte.byte)
    (s : State) :
  read request = Ok payload →
  match headers_get request "X-Hub-Signature-256" with
  | None => True
  | Some sig => is_ascii sig = true ∧ sig ≠ expected payload
  end →
  verify payload None = Ok false ∧
  handle request s =
    (Ok {| status := 401; body := [("error", Some (JStr "Invalid signature"))] |},
     record (Log WARNING "Invalid webhook signature from obl.dev" None) s).
Proof.
  intros Hread Hsig. split; [done |].
  unfold handle_obl_webhook, try_except, handle_body, bind, lift.
  rewrite Hread.
  destruct (headers_get request "X-Hub-Signature-256") as [sig |]; [| done].
  destruct Hsig as [Hascii Hne].
  destruct (decide (sig = EmptyString)) as [-> | Hnonempty]; [done |].
  rewrite verify_present by done. unfold compare_digest.
  rewrite expected_header_ascii, Hascii.
  destruct (String.eqb_spec (expected payload) sig); [congruence |].
  reflexivity.
Qed.

(** C10 at its failing input: the signature header holds a character that
    is not ASCII. [compare_digest] raises [TypeError], which the handler's
    [except] clause answers with status 500, where the claim has 401; no
    action is processed, the one effect is the error line in the log. *)
Lemma non_ascii_signature_answers_500 (payload : list Byte.byte) (s : State) :
  verify payload (Some non_ascii_signature) = Raise (TypeError not_ascii_message) ∧
  handle (request_of payload (Some non_ascii_signature)) s =
    (Ok {| status := 500; body := [("error", Some (JStr not_ascii_message))] |},
     record (Log ERROR "Error handling obl.dev webhook: "
               (Some (JStr not_ascii_message))) s).
Proof.
  assert (verify payload (Some non_ascii_signature)
          = Raise (TypeError not_ascii_message)) as Hverify.
  { rewrite verify_present by done. unfold compare_digest.
    by rewrite expected_header_ascii. }
  split; [done |].
  unfold handle_obl_webhook, try_except, handle_body, bind, lift.
  simpl read. cbv beta iota.
  replace (headers_get (request_of payload (Some non_ascii_signature))
             "X-Hub-Signature-256") with (Some non_ascii_signature) by done.
  by rewrite Hverify.
Qed.

(** A correctly signed request whose action is [status_update] is
    answered with 500: the branch of line 98 calls [update_status], which
    the class does not define. *)
Theorem status_update_answers_500 (request : Request) (payload : list Byte.byte)
    (data : json) (s : State) :
  read request = Ok payload →
  headers_get request "X-Hub-Signature-256" = Some (expected payload) →
  json_loads payload = Ok data →
  data_get data "action" = Ok (Some (JStr "status_update")) →
  handle request s =
    (Ok {| status := 500; body := [("error", Some (JStr no_update_status))] |},
     record (Log ERROR "Error handling obl.dev webhook: " (Some (JStr no_update_status)))
       (record (Log INFO "Received obl.dev webhook: " (Some (JStr "status_update"))) s)).
Proof.
  intros Hread Hsig Hjson Haction.
  unfold handle_obl_webhook, try_except, handle_body, bind, lift.
  rewrite Hread, Hsig.
  rewrite verify_present by done. unfold compare_digest.
  rewrite expected_header_ascii, String.eqb_refl. cbn [andb negb].
  rewrite Hjson. unfold action_or_unknown. rewrite Haction.
  reflexivity.
Qed.

End WebhookFacts.

(** A request whose signature is ASCII and wrong, in a world that keeps
    the log as a list and whose digest is the empty one. *)
Lemma invalid_signature_rejected_sample :
  let request := Webhook.request_of [] (Some "sha256=00") in
  Webhook.read request = Ok [] ∧
  match Webhook.headers_get request "X-Hub-Signature-256" with
  | None => True
  | Some sig =>
      Webhook.is_ascii sig = true ∧
      sig ≠ Webhook.expected_header (fun _ _ => []) "obl-dev-secret" []
  end ∧
  Webhook.verify_signature (fun _ _ => []) "obl-dev-secret" [] None = Ok false ∧
  Webhook.handle_obl_webhook (list Webhook.event) (fun _ _ => []) "obl-dev-secret"
    (fun _ => Ok Webhook.JNull) cons (fun _ => ret tt) (fun _ => ret tt) request []
  = (Ok {| Webhook.status := 401;
           Webhook.body := [("error", Some (Webhook.JStr "Invalid signature"))] |},
     [Webhook.Log WARNING "Invalid webhook signature from obl.dev" None]).
Proof.
  assert (Webhook.is_ascii "sha256=00" = true ∧
          "sha256=00" ≠ Webhook.expected_header (fun _ _ => []) "obl-dev-secret" []) as Hsig
    by (split; [reflexivity | discriminate]).
  split; [reflexivity |]. split; [exact Hsig |].
  apply (invalid_signature_rejected (list Webhook.event) (fun _ _ => []) "obl-dev-secret"
           (fun _ => Ok Webhook.JNull) cons (fun _ => ret tt) (fun _ => ret tt)
           (Webhook.request_of [] (Some "sha256=00")) [] []); [reflexivity | exact Hsig].
Defined.

(** A correctly signed [status_update] request, in the same world. *)
Lemma status_update_answers_500_sample :
  let request := Webhook.request_of [] (Some "sha256=") in
  let data := Webhook.JObj [("action", Webhook.JStr "status_update")] in
  Webhook.handle_obl_webhook (list Webhook.event) (fun _ _ => []) "obl-dev-secret"
    (fun _ => Ok data) cons (fun _ => ret tt) (fun _ => ret tt) request []
  = (Ok {| Webhook.status := 500;
           Webhook.body := [("error", Some (Webhook.JStr Webhook.no_update_status))] |},
     [Webhook.Log ERROR "Error handling obl.dev webhook: "
        (Some (Webhook.JStr Webhook.no_update_status));
      Webhook.Log INFO "Received obl.dev webhook: "
        (Some (Webhook.JStr "status_update"))]).
Proof.
  apply (status_update_answers_500 (list Webhook.event) (fun _ _ => []) "obl-dev-secret"
           (fun _ => Ok (Webhook.JObj [("action", Webhook.JStr "status_update")]))
           cons (fun _ => ret tt) (fun _ => ret tt)
           (Webhook.request_of [] (Some "sha256=")) []
           (Webhook.JObj [("action", Webhook.JStr "status_update")]) []);
    reflexivity.
Defined.

(** * The bridge file *)

Section BridgeFacts.

Import Webhook Server.

Lemma last_100_length (items : list json) : (length (last_100 items) ≤ 100)%nat.
Proof.
  unfold last_100. destruct (100 <? length items)%nat eqn:H.
  - apply Nat.ltb_lt in H. rewrite length_drop. lia.
  - apply Nat.ltb_ge in H. lia.
Qed.

Lemma last_100_suffix (items : list json) :
  items = (take (length items - 100) items ++ last_100 items)%list.
Proof.
  unfold last_100. destruct (100 <? length items)%nat eqn:H.
  - by rewrite take_drop.
  - apply Nat.ltb_ge in H.
    replace (length items - 100)%nat with 0%nat by lia. done.
Qed.

Lemma last_100_last (items : list json) (data : json) :
  last (last_100 (items ++ [data])) = Some data.
Proof.
  unfold last_100. destruct (100 <? _)%nat eqn:H; [| apply last_snoc].
  rewrite length_app in *. simpl in *.
  rewrite drop_app_le by lia. apply last_snoc.
Qed.

(** Keeping the last hundred twice is keeping them once. *)
Lemma last_100_app (items more : list json) :
  last_100 (last_100 items ++ more) = last_100 (items ++ more).
Proof.
  unfold last_100 at 2. destruct (100 <? length items)%nat eqn:H; [| done].
  apply Nat.ltb_lt in H. unfold last_100.
  rewrite !length_app, length_drop.
  destruct (100 <? length items - (length items - 100) + length more)%nat eqn:H1;
    destruct (100 <? length items + length more)%nat eqn:H2;
    try apply Nat.ltb_lt in H1; try apply Nat.ltb_lt in H2;
    try apply Nat.ltb_ge in H1; try apply Nat.ltb_ge in H2; try lia.
  - rewrite !drop_app, !length_drop, drop_drop. f_equal; f_equal; lia.
  - assert (length more = 0%nat) as Hm by lia.
    apply length_zero_iff_nil in Hm as ->.
    rewrite !app_nil_r, Nat.add_0_r. done.
Qed.

Lemma save_ok (env : Env) (data : json) (w : World) (items : list json) :
  entries w = Some items →
  open_bridge env = None →
  save_to_bridge env data w = (Ok tt, with_bridge w (last_100 (items ++ [data]))).
Proof.
  unfold entries, save_to_bridge, try_except, save_body, bind, read_bridge, lift.
  intros Hw Hopen. rewrite Hopen.
  destruct (bridge w) as [[[] | ] |]; try done; by injection Hw as <-.
Qed.

Lemma save_dropped (env : Env) (data : json) (w : World) :
  entries w = None ∨ is_Some (open_bridge env) →
  ∃ e, save_to_bridge env data w =
         (Ok tt, advanced w 0 [Log ERROR "Error saving to bridge: "
                                 (Some (JStr (str_of_exn e)))]).
Proof.
  unfold entries, save_to_bridge, try_except, save_body, bind, read_bridge, lift.
  intros [Hw | [e He]].
  - destruct (bridge w) as [[[] | e] |]; try done; eexists; reflexivity.
  - rewrite He.
    destruct (bridge w) as [[[] | e'] |]; eexists; reflexivity.
Qed.

(** A save that the bridge file admits keeps the last hundred entries: the
    new entry is the last one, the entries kept are the end of the old
    entries followed by the new one, at most a hundred, and all of them
    while there is room. *)
Theorem bridge_keeps_last_hundred (env : Env) (data : json) (w : World)
    (items : list json) :
  entries w = Some items →
  open_bridge env = None →
  ∃ kept,
    save_to_bridge env data w = (Ok tt, with_bridge w kept) ∧
    (length kept ≤ 100)%nat ∧
    last kept = Some data ∧
    (∃ dropped, (items ++ [data])%list = (dropped ++ kept)%list) ∧
    ((length items < 100)%nat → kept = (items ++ [data])%list).
Proof.
  intros Hw Hopen. exists (last_100 (items ++ [data])).
  split; [by apply save_ok |]. split; [apply last_100_length |].
  split; [apply last_100_last |]. split.
  - eexists. apply last_100_suffix.
  - intros Hroom. unfold last_100. rewrite length_app. simpl.
    destruct (100 <? length items + 1)%nat eqn:H; [| done].
    apply Nat.ltb_lt in H. lia.
Qed.

(** A save never raises. If the bridge file holds something that is not a
    list (or cannot be parsed), or cannot be opened for writing, the entry
    is dropped: the file stays as it is and all that happens is one error
    line in the log. *)
Theorem bridge_drops_entry_silently (env : Env) (data : json) (w : World) :
  entries w = None ∨ is_Some (open_bridge env) →
  ∃ w' line,
    save_to_bridge env data w = (Ok tt, w') ∧
    bridge w' = bridge w ∧ entries w' = entries w ∧
    requests w' = requests w ∧ clock w' = clock w ∧
    logs w' = (logs w ++ [line])%list.
Proof.
  intros H. destruct (save_dropped env data w H) as [e ->].
  do 2 eexists. repeat split.
Qed.

End BridgeFacts.

(** * The task and deployment actions *)

Section ActionFacts.

Import Webhook Server.

Lemma get_is_dict (data : json) (k : string) (v : json) :
  get data k = Ok v → ∃ items, data = JObj items.
Proof. destruct data; try done. eauto. Qed.

(** What [send_to_claude] comes to. *)
Lemma send_to_claude_spec (env : Env) (prompt task_id : json) (w : World) :
  ∃ answer w',
    send_to_claude env prompt task_id w = (Ok answer, w') ∧
    bridge w' = bridge w ∧ clock w' = clock w ∧
    requests w' =
      (if key_configured env then (requests w ++ [claude_payload prompt])%list
       else requests w) ∧
    (answer ≠ JNull →
     key_configured env = true ∧
     ∃ result, claude_api env (claude_payload prompt) = Ok (200%Z, Ok result) ∧
               first_text env result = Ok answer).
Proof.
  unfold send_to_claude. destruct (key_configured env) eqn:Hkey.
  - unfold try_except, claude_exchange, bind, lift, send_request, modify.
    destruct (claude_api env (claude_payload prompt)) as [[st body] | e] eqn:Hapi;
      simpl; [| by do 2 eexists].
    destruct (st =? 200)%Z eqn:Hst; simpl; [| by do 2 eexists].
    apply Z.eqb_eq in Hst as ->.
    destruct body as [result | e]; simpl; [| by do 2 eexists].
    destruct (first_text env result) as [answer | e] eqn:Htext; simpl;
      [| by do 2 eexists].
    do 2 eexists. repeat split. eauto.
  - by do 2 eexists.
Qed.

(** [send_to_claude] never raises and never touches the bridge file. It
    posts exactly one request if the API key is configured and none if it
    is not; and an answer other than [None] is the text of the first
    content item of a response with status 200. *)
Theorem claude_answer_only_from_200 (env : Env) (prompt task_id : json) (w : World) :
  ∃ answer w',
    send_to_claude env prompt task_id w = (Ok answer, w') ∧
    bridge w' = bridge w ∧
    requests w' =
      (if key_configured env then (requests w ++ [claude_payload prompt])%list
       else requests w) ∧
    (answer ≠ JNull →
     key_configured env = true ∧
     ∃ result, claude_api env (claude_payload prompt) = Ok (200%Z, Ok result) ∧
               first_text env result = Ok answer).
Proof.
  destruct (send_to_claude_spec env prompt task_id w)
    as (answer & w' & H & Hb & _ & Hr & Ha).
  by exists answer, w'.
Qed.

(** A task request with a prompt appends one status entry [processing]
    for its task to the bridge file, whatever the API answered, and
    without any request if no key is configured; a task request whose
    prompt is missing or falsy is ignored with one error line; and a
    prompt that is truthy and cannot be sliced makes the method raise
    before anything is done. *)
Theorem task_request_records_processing (env : Env) (data task task_id prompt : json)
    (w : World) (items : list json) :
  get_or data "task" (JObj []) = Ok task →
  get task "id" = Ok task_id →
  get task "prompt" = Ok prompt →
  entries w = Some items →
  open_bridge env = None →
  (truthy env prompt = false ∧
   process_task_request env data w =
     (Ok tt, advanced w 0 [Log ERROR "No prompt in task request" None])) ∨
  (truthy env prompt = true ∧
   match slice_50 prompt with
   | Raise e => process_task_request env data w = (Raise e, w)
   | Ok head =>
       ∃ answer w',
         process_task_request env data w = (Ok tt, w') ∧
         entries w' =
           Some (last_100 (items ++ [status_update env task_id "processing"
                                       (utcnow env (clock w)) answer])) ∧
         (key_configured env = false → answer = JNull ∧ requests w' = requests w)
   end).
Proof.
  intros Htask Hid Hprompt Hw Hopen.
  unfold process_task_request, bind, lift. cbv beta.
  rewrite Htask. cbv beta iota. rewrite Hid. cbv beta iota.
  rewrite Hprompt. cbv beta iota.
  destruct (truthy env prompt); [right | left; by split].
  split; [done |].
  destruct (slice_50 prompt) as [head | e]; [| done]. cbv beta iota.
  unfold log, Webhook.log, modify. cbv beta iota.
  destruct (send_to_claude_spec env prompt task_id
              (record (Log INFO "Processing task " (Some (JArr [task_id; head]))) w))
    as (answer & w1 & -> & Hb & Hc & Hr & Ha).
  unfold update_task_status, bind, now.
  erewrite save_ok; [| unfold entries; simpl; rewrite Hb; exact Hw | done].
  exists answer. eexists. split; [reflexivity |]. split.
  - unfold entries. simpl. by rewrite Hc.
  - intros Hkey. rewrite Hkey in Hr. split; [| done].
    destruct answer; try done; (destruct Ha as [Ha _]; [done | congruence]).
Qed.

End ActionFacts.

(** * The endpoints *)

Section EndpointFacts.

Import Webhook Server.

Variable env : Env.
Variable json_loads : list Byte.byte → result json.
Variable hmac_sha256 : list Byte.byte → list Byte.byte → list Byte.byte.
Variable WEBHOOK_SECRET : string.

Lemma save_total (data : json) (w : World) :
  ∃ w', save_to_bridge env data w = (Ok tt, w') ∧
        requests w' = requests w ∧ clock w' = clock w ∧
        (is_Some (open_bridge env) → bridge w' = bridge w).
Proof.
  destruct (entries w) as [items |] eqn:Hw.
  - destruct (open_bridge env) as [e |] eqn:Hopen.
    + destruct (save_dropped env data w) as [e' ->]; [right; by rewrite Hopen |].
      by eexists.
    + rewrite (save_ok env data w items Hw Hopen). eexists.
      repeat split. by intros [? ?].
  - destruct (save_dropped env data w) as [e' ->]; [by left |]. by eexists.
Qed.

Lemma saved_step (items rest : list json) (entry : json) :
  saved (last_100 (items ++ [entry])) rest = saved items (entry :: rest).
Proof.
  unfold saved. destruct rest as [| r rest]; [done |].
  by rewrite last_100_app, <- app_assoc.
Qed.

Lemma push_step_spec (fields : list (string * json)) (m : string) (w : World)
    (items : list json) :
  commit_message (JObj fields) = Some m →
  entries w = Some items →
  open_bridge env = None →
  push_step env (JObj fields) w =
    (Ok tt,
     if is_trigger env m
     then with_bridge {| logs := logs w; bridge := bridge w;
                         clock := S (clock w); requests := requests w |}
            (last_100 (items ++ [trigger_entry fields (utcnow env (clock w))]))
     else w).
Proof.
  intros Hm Hw Hopen.
  assert (get_or (JObj fields) "message" (JStr "") = Ok (JStr m)) as Hget.
  { unfold get_or, data_get. simpl in Hm.
    destruct (obj_get fields "message") as [[] |]; try done; congruence. }
  unfold push_step, bind at 1, lift. rewrite Hget. cbv beta iota.
  destruct (is_trigger env m); [| done].
  unfold bind, get, data_get, lift, now, trigger_entry, field. cbv beta iota.
  destruct (obj_get fields "id"), (obj_get fields "message");
    by erewrite save_ok; [| exact Hw | exact Hopen].
Qed.

Lemma push_loop_saves (commits : list json) :
  ∀ (w : World) (items : list json),
    Forall (fun c => is_Some (commit_message c)) commits →
    entries w = Some items →
    open_bridge env = None →
    ∃ w', push_loop env commits w = (Ok tt, w') ∧
          entries w' = Some (saved items (trigger_entries env commits (clock w))) ∧
          requests w' = requests w ∧ logs w' = logs w ∧
          (trigger_entries env commits (clock w) = [] → w' = w).
Proof.
  induction commits as [| commit rest IH]; intros w items Hall Hw Hopen.
  - by exists w.
  - apply Forall_cons in Hall as [[m Hm] Hrest].
    destruct commit as [| | | | | fields]; try done.
    cbn [push_loop trigger_entries]. unfold bind.
    rewrite (push_step_spec fields m w items Hm Hw Hopen), Hm.
    destruct (is_trigger env m); [| by apply IH].
    edestruct (IH (with_bridge
                     {| logs := logs w; bridge := bridge w;
                        clock := S (clock w); requests := requests w |}
                     (last_100 (items ++ [trigger_entry fields (utcnow env (clock w))]))))
      as (w' & -> & He & Hr & Hl & _); [exact Hrest | reflexivity | exact Hopen |].
    exists w'. split; [done |]. split; [| done].
    by rewrite He, saved_step.
Qed.

Lemma verify_expected (payload : list Byte.byte) :
  verify_signature hmac_sha256 WEBHOOK_SECRET payload
    (Some (expected_header hmac_sha256 WEBHOOK_SECRET payload)) = Ok true.
Proof.
  rewrite verify_present by done. unfold compare_digest.
  by rewrite expected_header_ascii, String.eqb_refl.
Qed.

(** The GitHub endpoint acts on any request that names the event [push],
    signed or not: it answers 200 and stores one deploy trigger for each
    commit whose lower-cased message contains [deploy] or [webhook], in the
    order of the commits, keeping the last hundred entries; a push with no
    such commit leaves the bridge file as it is. *)
Theorem github_push_stores_triggers (request : Request) (payload : list Byte.byte)
    (fields : list (string * json)) (commits : list json) (w : World)
    (items : list json) :
  read request = Ok payload →
  json_loads payload = Ok (JObj fields) →
  headers_get request "X-GitHub-Event" = Some "push" →
  obj_get fields "commits" = Some (JArr commits) →
  (obj_get fields "repository" = None ∨
   ∃ repository, obj_get fields "repository" = Some (JObj repository)) →
  Forall (fun c => is_Some (commit_message c)) commits →
  entries w = Some items →
  open_bridge env = None →
  ∃ w',
    handle_github_webhook env json_loads request w =
      (Ok {| status := 200; body := [("status", Some (JStr "processed"))] |}, w') ∧
    entries w' = Some (saved items (trigger_entries env commits (clock w))) ∧
    (trigger_entries env commits (clock w) = [] → bridge w' = bridge w) ∧
    requests w' = requests w.
Proof.
  intros Hread Hjson Hevent Hcommits Hrepo Hall Hw Hopen.
  assert (∃ name, get_or (JObj fields) "repository" (JObj []) = Ok (JObj name))
    as [name Hname].
  { unfold get_or, data_get. destruct Hrepo as [-> | [r ->]]; eauto. }
  assert (get (JObj name) "name" = Ok (field name "name")) as Hfield
    by (unfold get, data_get, field; by destruct (obj_get name "name")).
  assert (get_or (JObj fields) "commits" (JArr []) = Ok (JArr commits)) as Hget
    by (unfold get_or, data_get; by rewrite Hcommits).
  pose (w1 := record (Log INFO "GitHub push"
                        (Some (JArr [field name "name";
                                     JNum (pretty (length commits))])))
                (record (Log INFO "Received GitHub webhook: " (Some (JStr "push"))) w)).
  destruct (push_loop_saves commits w1 items Hall Hw Hopen)
    as (w' & Hloop & He & Hr & Hl & Hsame).
  exists w'. split; [| split; [exact He | split; [| exact Hr]]].
  - unfold handle_github_webhook, try_except, github_body, request_json, bind, lift.
    rewrite Hread, Hjson, Hevent. cbv beta iota.
    unfold log, Webhook.log, modify. cbv beta iota.
    unfold process_github_push, bind, lift.
    rewrite Hget. cbv beta iota. rewrite Hname. cbv beta iota.
    rewrite Hfield. cbv beta iota.
    unfold iter_items, log, Webhook.log, modify. cbv beta iota.
    fold w1. by rewrite Hloop.
  - intros Hnone. by rewrite (Hsame Hnone).
Qed.

(** The Claude endpoint reads no header: any request whose body is a JSON
    object is answered 200 [received]. It stores a [claude_response] entry
    in the bridge file exactly when both [task_id] and [response] are
    truthy, and otherwise leaves the file as it is. *)
Theorem claude_endpoint_relays_complete_answers (request : Request)
    (payload : list Byte.byte) (fields : list (string * json)) (w : World)
    (items : list json) :
  read request = Ok payload →
  json_loads payload = Ok (JObj fields) →
  entries w = Some items →
  open_bridge env = None →
  ∃ w',
    handle_claude_webhook env json_loads request w =
      (Ok {| status := 200; body := [("status", Some (JStr "received"))] |}, w') ∧
    requests w' = requests w ∧
    if truthy env (field fields "task_id") && truthy env (field fields "response")
    then entries w' =
           Some (last_100
                   (items ++ [JObj [("type", JStr "claude_response");
                                    ("task_id", field fields "task_id");
                                    ("response", field fields "response");
                                    ("timestamp", JStr (utcnow env (clock w)))]]))
    else bridge w' = bridge w.
Proof.
  intros Hread Hjson Hw Hopen.
  assert (∀ k, get (JObj fields) k = Ok (field fields k)) as Hget
    by (intros k; unfold get, data_get, field; by destruct (obj_get fields k)).
  unfold handle_claude_webhook, try_except, claude_body, request_json, bind, lift.
  rewrite Hread, Hjson. cbv beta iota.
  unfold log, Webhook.log, modify. cbv beta iota.
  rewrite !Hget. cbv beta iota.
  destruct (truthy env (field fields "task_id") && truthy env (field fields "response"));
    [| by eexists].
  unfold bind, now, relay_to_obl_dev, bind, lift, get_or, data_get. simpl obj_get.
  cbv beta iota. unfold log, Webhook.log, modify. cbv beta iota.
  erewrite save_ok; [| exact Hw | exact Hopen].
  by eexists.
Qed.

(** A correctly signed [deployment_trigger] request is answered 200
    [processed] whether or not anything was triggered: the bridge file gets
    a [deployment_triggered] entry if the script of the target exists, and
    stays as it is if it does not; no request is sent in either case. *)
Theorem deployment_answer_hides_outcome (request : Request)
    (payload : list Byte.byte) (fields : list (string * json)) (w : World)
    (items : list json) :
  let target := match obj_get fields "target" with
                | Some t => t
                | None => JStr "railway"
                end in
  read request = Ok payload →
  headers_get request "X-Hub-Signature-256"
    = Some (expected_header hmac_sha256 WEBHOOK_SECRET payload) →
  json_loads payload = Ok (JObj fields) →
  obj_get fields "action" = Some (JStr "deployment_trigger") →
  entries w = Some items →
  open_bridge env = None →
  ∃ w',
    handle_obl_webhook env json_loads hmac_sha256 WEBHOOK_SECRET request w =
      (Ok {| status := 200;
             body := [("status", Some (JStr "processed"));
                      ("action", Some (JStr "deployment_trigger"))] |}, w') ∧
    requests w' = requests w ∧
    if path_exists env (deployment_script env target)
    then entries w' =
           Some (last_100
                   (items ++ [JObj [("type", JStr "deployment_triggered");
                                    ("target", target);
                                    ("timestamp", JStr (utcnow env (clock w)))]]))
    else bridge w' = bridge w.
Proof.
  intros target Hread Hsig Hjson Haction Hw Hopen.
  unfold handle_obl_webhook, Webhook.handle_obl_webhook, try_except, handle_body,
    bind, lift.
  rewrite Hread, Hsig, verify_expected. cbv beta iota.
  change (negb true) with false. cbv beta iota.
  rewrite Hjson. cbv beta iota.
  unfold action_or_unknown, data_get. rewrite Haction. cbv beta iota.
  unfold Webhook.log, modify. cbv beta iota.
  unfold dispatch, trigger_deployment, bind, lift, get_or, data_get.
  fold target. replace (match obj_get fields "target" with
                        | Some v => Ok v
                        | None => Ok (JStr "railway")
                        end) with (Ok (A := json) target)
    by (unfold target; by destruct (obj_get fields "target")).
  cbv beta iota.
  destruct (path_exists env (deployment_script env target)); [| by eexists].
  unfold log, Webhook.log, modify, now. cbv beta iota.
  erewrite save_ok; [| exact Hw | exact Hopen].
  by eexists.
Qed.

End EndpointFacts.

(** * The test client against the handler *)

Section ClientFacts.

Import Webhook Client.

Variable env : Server.Env.
Variable json_loads : list Byte.byte → result json.
Variable hmac_sha256 : list Byte.byte → list Byte.byte → list Byte.byte.
Variable WEBHOOK_SECRET : string.
Variable json_dumps : json → list Byte.byte.

(** Whatever task the client sends to the obl.dev endpoint, the handler
    answers 401: the client passes no signature header. The client returns
    the error body, the server logs one warning, and the task is never
    processed (no request to the API, no change of the bridge file). *)
Theorem client_task_is_always_rejected (base_url : string)
    (task_data : list (string * json)) (seconds : Z) (stamp : string)
    (w : Server.World) (printed : list output) :
  let answer := JObj [("error", JStr "Invalid signature")] in
  send_obl_webhook (Server.World * list output) print
    (deliver env json_loads hmac_sha256 WEBHOOK_SECRET json_dumps)
    base_url task_data seconds stamp (w, printed)
  = (Ok (Some answer),
     (Server.advanced w 0 [Log WARNING "Invalid webhook signature from obl.dev" None],
      (printed ++ [Sent 401 answer])%list)).
Proof. reflexivity. Qed.

End ClientFacts.

(** * Sample instances *)

(** A process name the configuration does not have. *)
Lemma bad_config_sample :
  Orchestrator.execute_process_chain_with Orchestrator._build_execution_plan
    Orchestrator._execute_steps_parallel
    (Orchestrator.env_of (Orchestrator.config_of [])) (Orchestrator.config_of [])
    "missing" Orchestrator.fresh
  = (Ok false,
     Orchestrator.advanced Orchestrator.fresh 0
       [Orchestrator.Log INFO "Starting process chain: missing";
        Orchestrator.Log ERROR "Process chain failed: 'missing'"]).
Proof.
  apply (bad_config_fails_before_planning Orchestrator._build_execution_plan
           Orchestrator._execute_steps_parallel
           (Orchestrator.env_of (Orchestrator.config_of [])) (Orchestrator.config_of [])
           "missing" (KeyError "missing") Orchestrator.fresh).
  reflexivity.
Defined.

(** A run all of whose steps succeeded, with no [reports] directory. *)
Lemma unwritable_report_sample :
  let steps := [Orchestrator.step_def "A" "true" [] 0 false] in
  let started :=
    Orchestrator.advanced Orchestrator.fresh 0
      [Orchestrator.Log INFO "Starting process chain: deploy"] in
  Orchestrator.execute_process_chain_with Orchestrator._build_execution_plan
    (Orchestrator.reporting {[ "A" := true ]})
    (Orchestrator.env_without_reports (Orchestrator.config_of steps))
    (Orchestrator.config_of steps) "deploy" Orchestrator.fresh
  = (Ok false,
     Orchestrator.advanced started 2
       [Orchestrator.Log ERROR
          "Process chain failed: [Errno 2] No such file or directory"]).
Proof.
  apply (unwritable_report_fails_run Orchestrator._build_execution_plan
           (Orchestrator.reporting {[ "A" := true ]})
           (Orchestrator.env_without_reports
              (Orchestrator.config_of [Orchestrator.step_def "A" "true" [] 0 false]))
           (Orchestrator.config_of [Orchestrator.step_def "A" "true" [] 0 false])
           "deploy" (Orchestrator.YList [Orchestrator.step_def "A" "true" [] 0 false])
           None (Some {[ "A" := true ]})
           (OSError "[Errno 2] No such file or directory")
           Orchestrator.fresh
           (Orchestrator.advanced Orchestrator.fresh 0
              [Orchestrator.Log INFO "Starting process chain: deploy"])
           (Orchestrator.advanced Orchestrator.fresh 0
              [Orchestrator.Log INFO "Starting process chain: deploy"]));
    reflexivity.
Defined.

(** One step of two failed. *)
Lemma outcome_and_rate_sample :
  (Orchestrator.all_values {[ "A" := true; "B" := false ]} = true ↔
   (Orchestrator.success_rate (Some {[ "A" := true; "B" := false ]}) == 1)%Q) ∧
  Orchestrator.all_values ∅ = true ∧ Orchestrator.success_rate (Some ∅) = 0%Q.
Proof.
  apply (outcome_and_rate {[ "A" := true; "B" := false ]}).
  vm_compute. discriminate.
Defined.

(** The first save, into a bridge file that does not exist yet. *)
Lemma bridge_keeps_last_hundred_sample :
  ∃ kept,
    Server.save_to_bridge Server.sample_env (Webhook.JStr "entry") Server.empty_world
      = (Ok tt, Server.with_bridge Server.empty_world kept) ∧
    (length kept ≤ 100)%nat ∧
    last kept = Some (Webhook.JStr "entry") ∧
    (∃ dropped, ([] ++ [Webhook.JStr "entry"])%list = (dropped ++ kept)%list) ∧
    ((length (@nil Webhook.json) < 100)%nat → kept = ([] ++ [Webhook.JStr "entry"])%list).
Proof.
  apply (bridge_keeps_last_hundred Server.sample_env (Webhook.JStr "entry")
           Server.empty_world []); reflexivity.
Defined.

(** A bridge file that holds a dictionary instead of a list. *)
Lemma bridge_drops_entry_silently_sample :
  let w := {| Server.logs := []; Server.bridge := Some (Ok (Webhook.JObj []));
              Server.clock := 0; Server.requests := [] |} in
  ∃ w' line,
    Server.save_to_bridge Server.sample_env (Webhook.JStr "entry") w = (Ok tt, w') ∧
    Server.bridge w' = Server.bridge w ∧ Server.entries w' = Server.entries w ∧
    Server.requests w' = Server.requests w ∧ Server.clock w' = Server.clock w ∧
    Server.logs w' = (Server.logs w ++ [line])%list.
Proof.
  apply (bridge_drops_entry_silently Server.sample_env (Webhook.JStr "entry")
           {| Server.logs := []; Server.bridge := Some (Ok (Webhook.JObj []));
              Server.clock := 0; Server.requests := [] |}).
  left. reflexivity.
Defined.

(** A task with a prompt, and no API key. *)
Lemma task_request_sample :
  let task := Webhook.JObj [("id", Webhook.JStr "task_1");
                            ("prompt", Webhook.JStr "Test task")] in
  let data := Webhook.JObj [("action", Webhook.JStr "task_request"); ("task", task)] in
  (Server.truthy Server.sample_env (Webhook.JStr "Test task") = false ∧
   Server.process_task_request Server.sample_env data Server.empty_world =
     (Ok tt, Server.advanced Server.empty_world 0
               [Webhook.Log ERROR "No prompt in task request" None])) ∨
  (Server.truthy Server.sample_env (Webhook.JStr "Test task") = true ∧
   ∃ answer w',
     Server.process_task_request Server.sample_env data Server.empty_world
       = (Ok tt, w') ∧
     Server.entries w' =
       Some (Server.last_100
               ([] ++ [Server.status_update Server.sample_env (Webhook.JStr "task_1")
                         "processing" "2024-05-01T12:00:00" answer])) ∧
     (Server.key_configured Server.sample_env = false →
      answer = Webhook.JNull ∧ Server.requests w' = [])).
Proof.
  apply (task_request_records_processing Server.sample_env
           (Webhook.JObj [("action", Webhook.JStr "task_request");
                          ("task", Webhook.JObj [("id", Webhook.JStr "task_1");
                                                 ("prompt", Webhook.JStr "Test task")])])
           (Webhook.JObj [("id", Webhook.JStr "task_1");
                          ("prompt", Webhook.JStr "Test task")])
           (Webhook.JStr "task_1") (Webhook.JStr "Test task")
           Server.empty_world []); reflexivity.
Defined.

(** The push the test client sends: one commit, whose message has the
    word [deploy]. *)
Lemma github_push_sample :
  let commit := Webhook.JObj [("id", Webhook.JStr "abc123");
                              ("message", Webhook.JStr "test commit with deploy trigger")] in
  let data := Webhook.JObj [("ref", Webhook.JStr "refs/heads/main");
                            ("repository",
                             Webhook.JObj [("name", Webhook.JStr "Obl-Claude-Code")]);
                            ("commits", Webhook.JArr [commit])] in
  ∃ w',
    Server.handle_github_webhook Server.sample_env (fun _ => Ok data)
      (Server.request_with [] "X-GitHub-Event" "push") Server.empty_world =
      (Ok {| Webhook.status := 200;
             Webhook.body := [("status", Some (Webhook.JStr "processed"))] |}, w') ∧
    Server.entries w' =
      Some [Webhook.JObj [("type", Webhook.JStr "github_trigger");
                          ("action", Webhook.JStr "deploy");
                          ("commit", Webhook.JStr "abc123");
                          ("message", Webhook.JStr "test commit with deploy trigger");
                          ("timestamp", Webhook.JStr "2024-05-01T12:00:00")]] ∧
    (Server.trigger_entries Server.sample_env [commit] 0 = [] →
     Server.bridge w' = None) ∧
    Server.requests w' = [].
Proof.
  apply (github_push_stores_triggers Server.sample_env
           (fun _ => Ok (Webhook.JObj
                           [("ref", Webhook.JStr "refs/heads/main");
                            ("repository",
                             Webhook.JObj [("name", Webhook.JStr "Obl-Claude-Code")]);
                            ("commits",
                             Webhook.JArr
                               [Webhook.JObj
                                  [("id", Webhook.JStr "abc123");
                                   ("message",
                                    Webhook.JStr "test commit with deploy trigger")]])]))
           (Server.request_with [] "X-GitHub-Event" "push") []
           [("ref", Webhook.JStr "refs/heads/main");
            ("repository", Webhook.JObj [("name", Webhook.JStr "Obl-Claude-Code")]);
            ("commits",
             Webhook.JArr
               [Webhook.JObj
                  [("id", Webhook.JStr "abc123");
                   ("message", Webhook.JStr "test commit with deploy trigger")]])]
           [Webhook.JObj
              [("id", Webhook.JStr "abc123");
               ("message", Webhook.JStr "test commit with deploy trigger")]]
           Server.empty_world []);
    try reflexivity.
  - right. eexists. reflexivity.
  - repeat constructor. eexists. reflexivity.
Defined.

(** An answer with a task and a text. *)
Lemma claude_endpoint_sample :
  let fields := [("task_id", Webhook.JStr "task_1"); ("response", Webhook.JStr "done")] in
  ∃ w',
    Server.handle_claude_webhook Server.sample_env (fun _ => Ok (Webhook.JObj fields))
      (Server.request_with [] "Content-Type" "application/json") Server.empty_world =
      (Ok {| Webhook.status := 200;
             Webhook.body := [("status", Some (Webhook.JStr "received"))] |}, w') ∧
    Server.requests w' = [] ∧
    Server.entries w' =
      Some [Webhook.JObj [("type", Webhook.JStr "claude_response");
                          ("task_id", Webhook.JStr "task_1");
                          ("response", Webhook.JStr "done");
                          ("timestamp", Webhook.JStr "2024-05-01T12:00:00")]].
Proof.
  apply (claude_endpoint_relays_complete_answers Server.sample_env
           (fun _ => Ok (Webhook.JObj [("task_id", Webhook.JStr "task_1");
                                       ("response", Webhook.JStr "done")]))
           (Server.request_with [] "Content-Type" "application/json") []
           [("task_id", Webhook.JStr "task_1"); ("response", Webhook.JStr "done")]
           Server.empty_world []); reflexivity.
Defined.

(** A signed deployment trigger where no script exists. *)
Lemma deployment_sample :
  let fields := [("action", Webhook.JStr "deployment_trigger")] in
  ∃ w',
    Server.handle_obl_webhook Server.sample_env (fun _ => Ok (Webhook.JObj fields))
      (fun _ _ => []) "obl-dev-secret"
      (Server.request_with [] "X-Hub-Signature-256" "sha256=") Server.empty_world =
      (Ok {| Webhook.status := 200;
             Webhook.body := [("status", Some (Webhook.JStr "processed"));
                              ("action", Some (Webhook.JStr "deployment_trigger"))] |},
       w') ∧
    Server.requests w' = [] ∧
    Server.bridge w' = None.
Proof.
  apply (deployment_answer_hides_outcome Server.sample_env
           (fun _ => Ok (Webhook.JObj [("action", Webhook.JStr "deployment_trigger")]))
           (fun _ _ => []) "obl-dev-secret"
           (Server.request_with [] "X-Hub-Signature-256" "sha256=") []
           [("action", Webhook.JStr "deployment_trigger")]
           Server.empty_world []); reflexivity.
Defined.
